(** * File-backed data sources of feast: [FileSource], [FileOptions] and
      [SavedDatasetFileStorage]

    A shallow embedding of
    [sdk/python/feast/infra/offline_stores/file_source.py].

    - Python [str] values are [string]s.  The only string operations of the
      module, [startswith] and [replace] with the ASCII pattern ["s3://"],
      behave on the UTF-8 bytes of a string as they do on its code points.
    - [Optional[T]] is [option T]; [None] of Python is [None] of Rocq.
    - A [Dict[str, str]] is a [gmap string string]: Python compares
      dictionaries without regard to insertion order.
    - A call that can [raise] returns a [Result]; the messages of the
      exceptions are left out, no caller inspects them.
    - Each class is a [Module] with a record [t] of its attributes; methods
      take [self] as their first argument and keep their Python names. *)

From Stdlib Require Import String Ascii Bool.
From stdpp Require Import base option gmap strings.

Open Scope string_scope.

(** ** Python values and control *)

Inductive Exception :=
| ValueError
| TypeError
| AttributeError
| FileNotFoundError
| IsADirectoryError.

Inductive Result (A : Type) :=
| Ok (a : A)
| Raise (e : Exception).
Arguments Ok {A} a.
Arguments Raise {A} e.

(** [a and b] where both sides can raise: [b] is evaluated only when [a]
    is [True], and what [a] raises is raised. *)
Definition py_and (a b : Result bool) : Result bool :=
  match a with
  | Ok true => b
  | Ok false => Ok false
  | Raise e => Raise e
  end.

(** Truth value of an [Optional[str]]: [None] and [""] are false. *)
Definition str_truthy (v : option string) : bool :=
  match v with
  | None => false
  | Some s => negb (String.eqb s "")
  end.

(** Truth value of an [Optional[Dict]]: [None] and [{}] are false. *)
Definition dict_truthy (v : option (gmap string string)) : bool :=
  match v with
  | None => false
  | Some m => negb (Nat.eqb (size m) 0)
  end.

(** [v if v else d] on optional strings, for a string [d]. *)
Definition str_or (v : option string) (d : string) : string :=
  match v with
  | Some s => if str_truthy v then s else d
  | None => d
  end.

(** [s.startswith(p)]. *)
Definition startswith (s p : string) : bool := String.prefix p s.

(** [s.replace(old, new)] for a non-empty [old]: a scan from the left that
    replaces every occurrence of [old] that does not overlap an earlier
    one.  [skip] counts the characters of a matched occurrence that are
    still to be passed over. *)
Fixpoint replace_from (old new : string) (skip : nat) (s : string) : string :=
  match s with
  | EmptyString => EmptyString
  | String c rest =>
      match skip with
      | S k => replace_from old new k rest
      | O =>
          if String.prefix old s
          then new ++ replace_from old new (String.length old - 1) rest
          else String c (replace_from old new 0 rest)
      end
  end.

Definition replace (s old new : string) : string := replace_from old new 0 s.

(** [s[n:]] and [s.removeprefix(p)]: what stripping a leading [p] means. *)
Fixpoint str_drop (n : nat) (s : string) : string :=
  match n, s with
  | S k, String _ rest => str_drop k rest
  | _, _ => s
  end.

Definition removeprefix (s p : string) : string :=
  if String.prefix p s then str_drop (String.length p) s else s.

(** ** feast.data_format *)

(** Modelled from the spec: the classes [FileFormat] and [ParquetFormat] of
    [feast.data_format] and the wire message of a file format.  The
    format is a tagged variant with the parquet variant.  On the wire it
    is a sub-message in which one format can be chosen: the sub-message
    can be absent, present with no format chosen, or present with the
    parquet format.  Both of the first two decode to the absent format,
    and the absent format is encoded by leaving the sub-message out. *)
Inductive FileFormatProto :=
| format_unset
| format_empty
| parquet_format.

#[global] Instance FileFormatProto_eq_dec : EqDecision FileFormatProto.
Proof. solve_decision. Defined.

(** Modelled from the spec: [FileFormat] with its one variant, and its
    [to_proto] and [from_proto].  The spec does not describe how two
    formats compare; [__eq__] here is the one of [feast.data_format],
    [self.to_proto() == other.to_proto()], which compares the messages of
    the two formats and, handed [None], which has no [to_proto], raises
    [AttributeError]. *)
Module FileFormat.
Inductive t :=
| ParquetFormat.

#[global] Instance eq_dec : EqDecision t.
Proof. solve_decision. Defined.

Definition to_proto (self : t) : FileFormatProto :=
  match self with
  | ParquetFormat => parquet_format
  end.

Definition from_proto (proto : FileFormatProto) : option t :=
  match proto with
  | parquet_format => Some ParquetFormat
  | format_unset => None
  | format_empty => None
  end.

Definition __eq__ (self : t) (other : option t) : Result bool :=
  match other with
  | Some other => Ok (bool_decide (to_proto self = to_proto other))
  | None => Raise AttributeError
  end.
End FileFormat.

(** [a == b] on two [Optional[FileFormat]]: [None == None] is [True];
    a format on the left decides by its [__eq__]; [None] on the left does
    not know a format, so the [__eq__] of the format on the right is
    asked, with [None] as its argument. *)
Definition file_format_eq (a b : option FileFormat.t) : Result bool :=
  match a, b with
  | None, None => Ok true
  | Some f, _ => FileFormat.__eq__ f b
  | None, Some g => FileFormat.__eq__ g None
  end.

(** ** The wire messages *)

(** Modelled from the spec: the messages [DataSource] and
    [DataSource.FileOptions] of [feast.core.DataSource_pb2].  A string field
    of a message is never absent; a message built with [None] for a field
    holds the default there (the empty string, the unset format, the empty
    map). *)
Module DataSourceProto.
Inductive SourceType :=
| INVALID
| BATCH_FILE.

Record FileOptions := {
  fo_file_format : FileFormatProto;
  fo_file_url : string;
  fo_s3_endpoint_override : string;
}.

(** [DataSourceProto.FileOptions(file_format=.., file_url=..,
    s3_endpoint_override=..)]. *)
Definition FileOptions_new (file_format : option FileFormatProto)
    (file_url s3_endpoint_override : option string) : FileOptions :=
  {| fo_file_format := default format_unset file_format;
     fo_file_url := default "" file_url;
     fo_s3_endpoint_override := default "" s3_endpoint_override |}.

Record t := {
  name : string;
  type : SourceType;
  field_mapping : gmap string string;
  file_options : FileOptions;
  event_timestamp_column : string;
  created_timestamp_column : string;
  date_partition_column : string;
}.

(** [DataSourceProto(name=.., type=.., field_mapping=.., file_options=..)]:
    the fields that are not given hold their defaults. *)
Definition new (name : string) (type : SourceType)
    (field_mapping : gmap string string) (file_options : FileOptions) : t :=
  {| name := name; type := type; field_mapping := field_mapping;
     file_options := file_options;
     event_timestamp_column := "";
     created_timestamp_column := "";
     date_partition_column := "" |}.

Definition set_event_timestamp_column (m : t) (v : string) : t :=
  {| name := name m; type := type m; field_mapping := field_mapping m;
     file_options := file_options m;
     event_timestamp_column := v;
     created_timestamp_column := created_timestamp_column m;
     date_partition_column := date_partition_column m |}.

Definition set_created_timestamp_column (m : t) (v : string) : t :=
  {| name := name m; type := type m; field_mapping := field_mapping m;
     file_options := file_options m;
     event_timestamp_column := event_timestamp_column m;
     created_timestamp_column := v;
     date_partition_column := date_partition_column m |}.

Definition set_date_partition_column (m : t) (v : string) : t :=
  {| name := name m; type := type m; field_mapping := field_mapping m;
     file_options := file_options m;
     event_timestamp_column := event_timestamp_column m;
     created_timestamp_column := created_timestamp_column m;
     date_partition_column := v |}.
End DataSourceProto.

(** ** class FileOptions *)

Module FileOptions.
Record t := {
  _file_format : option FileFormat.t;
  _file_url : option string;
  _s3_endpoint_override : option string;
}.

Definition __init__ (file_format : option FileFormat.t)
    (file_url s3_endpoint_override : option string) : t :=
  {| _file_format := file_format;
     _file_url := file_url;
     _s3_endpoint_override := s3_endpoint_override |}.

(** The properties. *)
Definition file_format (self : t) : option FileFormat.t := _file_format self.

Definition file_url (self : t) : option string := _file_url self.

Definition s3_endpoint_override (self : t) : option string :=
  if bool_decide (_s3_endpoint_override self = Some "")
  then None
  else _s3_endpoint_override self.

(** The setters: [self.file_format = v] and so on. *)
Definition set_file_format (self : t) (file_format : option FileFormat.t) : t :=
  {| _file_format := file_format;
     _file_url := _file_url self;
     _s3_endpoint_override := _s3_endpoint_override self |}.

Definition set_file_url (self : t) (file_url : option string) : t :=
  {| _file_format := _file_format self;
     _file_url := file_url;
     _s3_endpoint_override := _s3_endpoint_override self |}.

Definition set_s3_endpoint_override (self : t)
    (s3_endpoint_override : option string) : t :=
  {| _file_format := _file_format self;
     _file_url := _file_url self;
     _s3_endpoint_override := s3_endpoint_override |}.

Definition from_proto (file_options_proto : DataSourceProto.FileOptions) : t :=
  __init__
    (FileFormat.from_proto (DataSourceProto.fo_file_format file_options_proto))
    (Some (DataSourceProto.fo_file_url file_options_proto))
    (Some (DataSourceProto.fo_s3_endpoint_override file_options_proto)).

Definition to_proto (self : t) : DataSourceProto.FileOptions :=
  DataSourceProto.FileOptions_new
    (match file_format self with
     | None => None
     | Some f => Some (FileFormat.to_proto f)
     end)
    (file_url self)
    (s3_endpoint_override self).
End FileOptions.

(** ** class DataSource *)

(** Modelled from the spec: the constructor of the base class [DataSource]
    of [feast.data_source], which [FileSource.__init__] calls through
    [super()].  It keeps the name it is given; the three column identifiers
    are optional strings that default to the empty string, and the field
    mapping defaults to the empty mapping. *)
Module DataSource.
Record t := {
  name : string;
  event_timestamp_column : string;
  created_timestamp_column : string;
  field_mapping : gmap string string;
  date_partition_column : string;
}.

Definition __init__ (name : string)
    (event_timestamp_column created_timestamp_column : option string)
    (field_mapping : option (gmap string string))
    (date_partition_column : option string) : t :=
  {| name := name;
     event_timestamp_column := str_or event_timestamp_column "";
     created_timestamp_column := str_or created_timestamp_column "";
     field_mapping :=
       match field_mapping with
       | Some m => if dict_truthy field_mapping then m else ∅
       | None => ∅
       end;
     date_partition_column := str_or date_partition_column "" |}.
End DataSource.

(** ** class FileSource(DataSource) *)

(** The handle [S3FileSystem(client_kwargs=..)] of the [s3fs] package: an
    object that records the arguments it was configured with. *)
Record S3FileSystem := {
  client_kwargs : option (gmap string string);
}.

Module FileSource.
Record t := {
  super : DataSource.t;
  file_options : FileOptions.t;
}.

(** The attributes inherited from [DataSource]. *)
Definition name (self : t) : string := DataSource.name (super self).

Definition event_timestamp_column (self : t) : string :=
  DataSource.event_timestamp_column (super self).

Definition created_timestamp_column (self : t) : string :=
  DataSource.created_timestamp_column (super self).

Definition field_mapping (self : t) : gmap string string :=
  DataSource.field_mapping (super self).

Definition date_partition_column (self : t) : string :=
  DataSource.date_partition_column (super self).

(** The defaults of the keyword arguments of [__init__]. *)
Definition name_default : option string := Some "".
Definition event_timestamp_column_default : option string := Some "".
Definition file_format_default : option FileFormat.t := None.
Definition created_timestamp_column_default : option string := Some "".
Definition field_mapping_default : option (gmap string string) := None.
Definition date_partition_column_default : option string := Some "".
Definition s3_endpoint_override_default : option string := None.

(** [FileSource(path, name, event_timestamp_column, file_format,
    created_timestamp_column, field_mapping, date_partition_column,
    s3_endpoint_override)]: only [path is None] is refused. *)
Definition __init__ (path name event_timestamp_column : option string)
    (file_format : option FileFormat.t)
    (created_timestamp_column : option string)
    (field_mapping : option (gmap string string))
    (date_partition_column s3_endpoint_override : option string) : Result t :=
  match path with
  | None => Raise ValueError
  | Some p =>
      let file_options :=
        FileOptions.__init__ file_format path s3_endpoint_override in
      Ok {| super :=
              DataSource.__init__ (str_or name p) event_timestamp_column
                created_timestamp_column field_mapping date_partition_column;
            file_options := file_options |}
  end.

(** The values [__eq__] can be handed as [other]: a [FileSource], or an
    object of another class. *)
Inductive PyObject :=
| PyFileSource (d : t)
| PyNone
| PyStr (s : string)
| PyBool (b : bool)
| PyOtherDataSource (kind : string) (d : DataSource.t)
| PyFileOptions (o : FileOptions.t).

(** [isinstance(other, FileSource)]. *)
Definition isinstance_FileSource (other : PyObject) : bool :=
  match other with
  | PyFileSource _ => true
  | _ => false
  end.

(** [self == other]: the chain of [and] over seven comparisons, after the
    [isinstance] test.  The chain stops at the first comparison that is
    [False]; the comparison of the formats, the third, can raise. *)
Definition __eq__ (self : t) (other : PyObject) : Result bool :=
  match other with
  | PyFileSource other =>
      py_and (Ok (bool_decide (name self = name other)))
     (py_and (Ok (bool_decide (FileOptions.file_url (file_options self)
                               = FileOptions.file_url (file_options other))))
     (py_and (file_format_eq (FileOptions.file_format (file_options self))
                (FileOptions.file_format (file_options other)))
     (py_and (Ok (bool_decide (event_timestamp_column self
                               = event_timestamp_column other)))
     (py_and (Ok (bool_decide (created_timestamp_column self
                               = created_timestamp_column other)))
     (py_and (Ok (bool_decide (field_mapping self = field_mapping other)))
             (Ok (bool_decide
                    (FileOptions.s3_endpoint_override (file_options self)
                     = FileOptions.s3_endpoint_override
                         (file_options other)))))))))
  | _ => Raise TypeError
  end.

(** The property [path]. *)
Definition path (self : t) : option string :=
  FileOptions.file_url (file_options self).

(** Decoding calls the constructor on the fields of the message;
    [dict(data_source.field_mapping)] is the map of the message. *)
Definition from_proto (data_source : DataSourceProto.t) : Result t :=
  __init__
    (Some (DataSourceProto.fo_file_url
             (DataSourceProto.file_options data_source)))
    (Some (DataSourceProto.name data_source))
    (Some (DataSourceProto.event_timestamp_column data_source))
    (FileFormat.from_proto
       (DataSourceProto.fo_file_format
          (DataSourceProto.file_options data_source)))
    (Some (DataSourceProto.created_timestamp_column data_source))
    (Some (DataSourceProto.field_mapping data_source))
    (Some (DataSourceProto.date_partition_column data_source))
    (Some (DataSourceProto.fo_s3_endpoint_override
             (DataSourceProto.file_options data_source))).

(** Encoding builds the message and then assigns its three column
    fields. *)
Definition to_proto (self : t) : DataSourceProto.t :=
  let data_source_proto :=
    DataSourceProto.new (name self) DataSourceProto.BATCH_FILE
      (field_mapping self) (FileOptions.to_proto (file_options self)) in
  let data_source_proto :=
    DataSourceProto.set_event_timestamp_column data_source_proto
      (event_timestamp_column self) in
  let data_source_proto :=
    DataSourceProto.set_created_timestamp_column data_source_proto
      (created_timestamp_column self) in
  let data_source_proto :=
    DataSourceProto.set_date_partition_column data_source_proto
      (date_partition_column self) in
  data_source_proto.

(** The static method that resolves a path: [client_kwargs] is
    [dict(endpoint_url=s3_endpoint_override)] when the override is true,
    [None] otherwise. *)
Definition create_filesystem_and_path (path : string)
    (s3_endpoint_override : option string)
    : option S3FileSystem * string :=
  if startswith path "s3://"
  then
    let s3fs :=
      {| client_kwargs :=
           match s3_endpoint_override with
           | Some e =>
               if str_truthy s3_endpoint_override
               then Some {[ "endpoint_url" := e ]}
               else None
           | None => None
           end |} in
    (Some s3fs, replace path "s3://" "")
  else (None, path).

(** The assignments [d.file_options.file_url = v] and
    [d.date_partition_column = v] on a source [d].  The first goes through
    the setter of [FileOptions] and rebinds [_file_url] there; the [str]
    that [name] was bound to at construction is immutable and stays. *)
Definition assign_file_url (self : t) (v : option string) : t :=
  {| super := super self;
     file_options := FileOptions.set_file_url (file_options self) v |}.

Definition assign_date_partition_column (self : t) (v : string) : t :=
  {| super :=
       {| DataSource.name := name self;
          DataSource.event_timestamp_column := event_timestamp_column self;
          DataSource.created_timestamp_column := created_timestamp_column self;
          DataSource.field_mapping := field_mapping self;
          DataSource.date_partition_column := v |};
     file_options := file_options self |}.

(** The assignment [d.file_options.s3_endpoint_override = v]. *)
Definition assign_s3_endpoint_override (self : t) (v : option string) : t :=
  {| super := super self;
     file_options :=
       FileOptions.set_s3_endpoint_override (file_options self) v |}.
End FileSource.

(** Modelled from the spec: the message [SavedDatasetStorage] of
    [feast.core.SavedDataset_pb2], the envelope that tells the kind of a
    storage and, for a file storage, holds its file options message.  An
    envelope whose kind is not set reads as the default file options. *)
Module SavedDatasetStorageProto.
Inductive t :=
| kind_unset
| file_storage_kind (file_storage : DataSourceProto.FileOptions).

(** [SavedDatasetStorageProto(file_storage=..)]. *)
Definition new (file_storage : DataSourceProto.FileOptions) : t :=
  file_storage_kind file_storage.

(** [storage_proto.file_storage]. *)
Definition file_storage (m : t) : DataSourceProto.FileOptions :=
  match m with
  | file_storage_kind o => o
  | kind_unset => DataSourceProto.FileOptions_new None None None
  end.
End SavedDatasetStorageProto.

(** ** class SavedDatasetFileStorage(SavedDatasetStorage) *)

Module SavedDatasetFileStorage.
Record t := {
  file_options : FileOptions.t;
}.

(** The defaults of the keyword arguments of [__init__]. *)
Definition file_format_default : option FileFormat.t :=
  Some FileFormat.ParquetFormat.
Definition s3_endpoint_override_default : option string := None.

(** [path] is declared [str] and [__init__] does not test it. *)
Definition __init__ (path : string) (file_format : option FileFormat.t)
    (s3_endpoint_override : option string) : t :=
  {| file_options :=
       FileOptions.__init__ file_format (Some path) s3_endpoint_override |}.

(** [FileSource(path=.., file_format=.., s3_endpoint_override=..)], the
    other arguments at their defaults. *)
Definition to_data_source (self : t) : Result FileSource.t :=
  FileSource.__init__
    (FileOptions.file_url (file_options self))
    FileSource.name_default
    FileSource.event_timestamp_column_default
    (FileOptions.file_format (file_options self))
    FileSource.created_timestamp_column_default
    FileSource.field_mapping_default
    FileSource.date_partition_column_default
    (FileOptions.s3_endpoint_override (file_options self)).

(** Decoding reads the file options of the envelope and hands their three
    properties to the constructor, which stores what it is given. *)
Definition from_proto (storage_proto : SavedDatasetStorageProto.t) : t :=
  let file_options :=
    FileOptions.from_proto (SavedDatasetStorageProto.file_storage storage_proto) in
  match FileOptions.file_url file_options with
  | Some path =>
      __init__ path (FileOptions.file_format file_options)
        (FileOptions.s3_endpoint_override file_options)
  | None =>
      {| file_options :=
           FileOptions.__init__ (FileOptions.file_format file_options) None
             (FileOptions.s3_endpoint_override file_options) |}
  end.

Definition to_proto (self : t) : SavedDatasetStorageProto.t :=
  SavedDatasetStorageProto.new (FileOptions.to_proto (file_options self)).
End SavedDatasetFileStorage.

(** ** What construction establishes *)

(** Every source that [__init__] returns has a path, and it has an empty
    name only when that path is empty. *)
Definition constructed (d : FileSource.t) : Prop :=
  ∃ p, FileSource.path d = Some p ∧ (FileSource.name d = "" → p = "").

(** The source of the docstring of [__init__], with the parquet format
    made explicit. *)
Definition example_source : FileSource.t :=
  {| FileSource.super :=
       {| DataSource.name := "my_features.parquet";
          DataSource.event_timestamp_column := "event_timestamp";
          DataSource.created_timestamp_column := "";
          DataSource.field_mapping := ∅;
          DataSource.date_partition_column := "" |};
     FileSource.file_options :=
       {| FileOptions._file_format := Some FileFormat.ParquetFormat;
          FileOptions._file_url := Some "my_features.parquet";
          FileOptions._s3_endpoint_override := None |} |}.

(** Whether [old] occurs in [s]. *)
Fixpoint occurs (old s : string) : bool :=
  match s with
  | EmptyString => String.prefix old s
  | String _ rest => String.prefix old s || occurs old rest
  end.

(** ** Reading the schema of a source *)

(** [s.split(sep)] for a separator of one character: the pieces between
    the separators, of which there is always at least one. *)
Fixpoint split_on (sep : ascii) (s : string) : list string :=
  match s with
  | EmptyString => [EmptyString]
  | String c rest =>
      if Ascii.eqb c sep
      then EmptyString :: split_on sep rest
      else
        match split_on sep rest with
        | piece :: pieces => String c piece :: pieces
        | [] => [String c EmptyString]
        end
  end.

(** [path.split('/')[-1]]. *)
Definition last_segment (path : string) : string :=
  List.last (split_on "/"%char path) EmptyString.

(** Whether the character [c] is in [s]. *)
Fixpoint has_char (c : ascii) (s : string) : bool :=
  match s with
  | EmptyString => false
  | String c' rest => Ascii.eqb c' c || has_char c rest
  end.

(** The files the parquet readers and writers can see.  [local_files]
    are the local files by the path they are opened with.  [s3_objects]
    gives, for the configuration of a handle, the table that
    [pq.read_table] reads at a path through that handle: the table of the
    object with that key, or of the dataset that lies under that prefix;
    a path with no entry is one that cannot be read. *)
Record World (Table : Type) := {
  local_files : gmap string Table;
  s3_objects : option (gmap string string) → gmap string Table;
}.
Arguments local_files {Table} w.
Arguments s3_objects {Table} w.

(** What reading a schema can raise: [AttributeError] when [self.path]
    is [None], [FileNotFoundError] when there is nothing to read at the
    path, [IsADirectoryError] when the path to write names a directory. *)
Definition ReadError : Type := Exception.

Section Introspection.
Context {Table : Type}.

(** [schema_arrow] of a table as the pairs of [zip(schema.names,
    map(str, schema.types))], and what a table becomes through
    [.to_pandas().to_parquet(..)]: both belong to pyarrow and pandas. *)
Variable schema_arrow : Table → list (string * string).
Variable via_pandas : Table → Table.

(** [table.to_parquet(path)] on the local disk: a path with nothing after
    its last slash names a directory and cannot be written.  What a
    write that fails leaves behind is for pandas to decide; here it
    leaves nothing, and no property of the method below rests on that. *)
Definition to_parquet (w : World Table) (path : string) (table : Table)
    : ReadError + World Table :=
  if bool_decide (last_segment path = "")
  then inl IsADirectoryError
  else inr {| local_files := <[path := table]> (local_files w);
              s3_objects := s3_objects w |}.

(** [zip(schema.names, map(str, schema.types))] for
    [schema = ParquetFile(path).schema_arrow]. *)
Definition ParquetFile_schema (w : World Table) (path : string)
    : ReadError + list (string * string) :=
  match local_files w !! path with
  | Some table => inr (schema_arrow table)
  | None => inl FileNotFoundError
  end.

(** The method of [FileSource]; [config] is not used.  It returns its
    result and the files as it leaves them. *)
Definition get_table_column_names_and_types (self : FileSource.t)
    (w : World Table) : (ReadError + list (string * string)) * World Table :=
  match FileSource.path self with
  | None => (inl AttributeError, w)
  | Some self_path =>
      let '(filesystem, path) :=
        FileSource.create_filesystem_and_path self_path
          (FileOptions.s3_endpoint_override (FileSource.file_options self)) in
      match filesystem with
      | Some fs =>
          match s3_objects w (client_kwargs fs) !! path with
          | Some table =>
              match
                to_parquet w ("/tmp/" ++ last_segment path) (via_pandas table)
              with
              | inr w =>
                  let path := "/tmp/" ++ last_segment path in
                  (ParquetFile_schema w path, w)
              | inl e => (inl e, w)
              end
          | None => (inl FileNotFoundError, w)
          end
      | None => (ParquetFile_schema w path, w)
      end
  end.
End Introspection.

(** ** Sample values *)

(** A source constructed with the empty path, what it is after
    [file_options.file_url = "x.parquet"], and what the message of that
    decodes to. *)
Definition empty_path_source : FileSource.t :=
  {| FileSource.super :=
       {| DataSource.name := "";
          DataSource.event_timestamp_column := "";
          DataSource.created_timestamp_column := "";
          DataSource.field_mapping := ∅;
          DataSource.date_partition_column := "" |};
     FileSource.file_options :=
       {| FileOptions._file_format := Some FileFormat.ParquetFormat;
          FileOptions._file_url := Some "";
          FileOptions._s3_endpoint_override := None |} |}.

Definition mutated_source : FileSource.t :=
  {| FileSource.super := FileSource.super empty_path_source;
     FileSource.file_options :=
       {| FileOptions._file_format := Some FileFormat.ParquetFormat;
          FileOptions._file_url := Some "x.parquet";
          FileOptions._s3_endpoint_override := None |} |}.

Definition mutated_decoded : FileSource.t :=
  {| FileSource.super :=
       {| DataSource.name := "x.parquet";
          DataSource.event_timestamp_column := "";
          DataSource.created_timestamp_column := "";
          DataSource.field_mapping := ∅;
          DataSource.date_partition_column := "" |};
     FileSource.file_options :=
       {| FileOptions._file_format := Some FileFormat.ParquetFormat;
          FileOptions._file_url := Some "x.parquet";
          FileOptions._s3_endpoint_override := Some "" |} |}.

(** The message of [example_source], and the source it decodes to: the
    absent override of [example_source] comes back stored as the empty
    string. *)
Definition example_message : DataSourceProto.t :=
  {| DataSourceProto.name := "my_features.parquet";
     DataSourceProto.type := DataSourceProto.BATCH_FILE;
     DataSourceProto.field_mapping := ∅;
     DataSourceProto.file_options :=
       {| DataSourceProto.fo_file_format := parquet_format;
          DataSourceProto.fo_file_url := "my_features.parquet";
          DataSourceProto.fo_s3_endpoint_override := "" |};
     DataSourceProto.event_timestamp_column := "event_timestamp";
     DataSourceProto.created_timestamp_column := "";
     DataSourceProto.date_partition_column := "" |}.

Definition example_decoded : FileSource.t :=
  {| FileSource.super := FileSource.super example_source;
     FileSource.file_options :=
       {| FileOptions._file_format := Some FileFormat.ParquetFormat;
          FileOptions._file_url := Some "my_features.parquet";
          FileOptions._s3_endpoint_override := Some "" |} |}.

(** A source on an object store with its own endpoint. *)
Definition example_s3_source : FileSource.t :=
  {| FileSource.super :=
       {| DataSource.name := "drivers";
          DataSource.event_timestamp_column := "event_timestamp";
          DataSource.created_timestamp_column := "created";
          DataSource.field_mapping := {[ "id" := "driver_id" ]};
          DataSource.date_partition_column := "" |};
     FileSource.file_options :=
       {| FileOptions._file_format := Some FileFormat.ParquetFormat;
          FileOptions._file_url := Some "s3://bucket/a/drivers.parquet";
          FileOptions._s3_endpoint_override := Some "http://localhost:9000" |} |}.


(** Files whose tables are given by their schemas: one local file, and
    two objects of the store at [http://localhost:9000]. *)
Definition example_world : World (list (string * string)) :=
  {| local_files :=
       {[ "my_features.parquet" :=
            [("driver_id", "int64"); ("event_timestamp", "timestamp[us]")] ]};
     s3_objects := λ kwargs,
       if bool_decide
            (kwargs = Some {[ "endpoint_url" := "http://localhost:9000" ]})
       then {[ "bucket/a/drivers.parquet" := [("id", "int64")];
               "bucket/b/drivers.parquet" := [("id", "string")] ]}
       else ∅ |}.

(** * Properties *)

(** ** Truth values and defaults *)

Lemma str_truthy_Some (s : string) :
  str_truthy (Some s) = negb (bool_decide (s = "")).
Proof.
  unfold str_truthy. destruct (String.eqb_spec s "") as [->|Hne].
  - reflexivity.
  - rewrite bool_decide_eq_false_2; done.
Qed.

Lemma str_or_None (d : string) : str_or None d = d.
Proof. reflexivity. Qed.

Lemma str_or_empty (d : string) : str_or (Some "") d = d.
Proof. reflexivity. Qed.

Lemma str_or_nonempty (s d : string) : s ≠ "" → str_or (Some s) d = s.
Proof.
  intros Hne. unfold str_or, str_truthy.
  destruct (String.eqb_spec s "") as [Heq|_]; [contradiction | reflexivity].
Qed.

(** [v if v else d] is [v] or [d]. *)
Lemma str_or_cases (v : option string) (d : string) :
  (v = Some (str_or v d) ∧ str_or v d ≠ "") ∨ str_or v d = d.
Proof.
  destruct v as [s|]; [|by right].
  destruct (decide (s = "")) as [->|Hne]; [by right|].
  left. by rewrite str_or_nonempty.
Qed.

(** Decoding hands back to the constructor the string it chose. *)
Lemma str_or_again (v : option string) (d : string) :
  str_or (Some (str_or v d)) d = str_or v d.
Proof.
  destruct (decide (str_or v d = "")) as [Heq|Hne].
  - rewrite Heq. rewrite str_or_empty.
    destruct (str_or_cases v d) as [[_ Hne]|Hd]; congruence.
  - by apply str_or_nonempty.
Qed.

Lemma dict_or_empty (m : gmap string string) :
  (if dict_truthy (Some m) then m else ∅) = m.
Proof.
  unfold dict_truthy. destruct (Nat.eqb_spec (size m) 0) as [Hz|_]; [|done].
  simpl. symmetry. by apply map_size_empty_iff.
Qed.

Lemma DataSource_field_mapping_again (fm : option (gmap string string)) c1 c2 c3 c1' c2' c3' n n' :
  DataSource.field_mapping
    (DataSource.__init__ n c1 c2
       (Some (DataSource.field_mapping (DataSource.__init__ n' c1' c2' fm c3')))
       c3)
  = DataSource.field_mapping (DataSource.__init__ n' c1' c2' fm c3').
Proof. simpl. apply dict_or_empty. Qed.

(** ** The s3 endpoint override of a [FileOptions] *)

Lemma s3_endpoint_override_spec (fo : FileOptions.t) :
  FileOptions.s3_endpoint_override fo
  = match FileOptions._s3_endpoint_override fo with
    | Some "" => None
    | v => v
    end.
Proof.
  unfold FileOptions.s3_endpoint_override.
  destruct (FileOptions._s3_endpoint_override fo) as [s|] eqn:E.
  - destruct (decide (s = "")) as [->|Hne].
    + by rewrite bool_decide_eq_true_2.
    + rewrite bool_decide_eq_false_2; [|congruence].
      destruct s; [done | reflexivity].
  - by rewrite bool_decide_eq_false_2.
Qed.

(** The property never reads as the empty string. *)
Lemma s3_endpoint_override_not_empty (fo : FileOptions.t) :
  FileOptions.s3_endpoint_override fo ≠ Some "".
Proof.
  unfold FileOptions.s3_endpoint_override. case_bool_decide; congruence.
Qed.

(** C7: on every file-location record, storing the empty string as the s3
    endpoint override and reading the property back gives the absent
    value, not the empty string; a stored absent value reads back as
    absent too. *)
Theorem C7_empty_s3_endpoint_override_reads_absent (fo : FileOptions.t) :
  FileOptions.s3_endpoint_override
    (FileOptions.set_s3_endpoint_override fo (Some "")) = None
  ∧ FileOptions._s3_endpoint_override
      (FileOptions.set_s3_endpoint_override fo (Some "")) = Some ""
  ∧ FileOptions.s3_endpoint_override
      (FileOptions.set_s3_endpoint_override fo None) = None.
Proof. repeat split. Qed.

(** ** Construction *)

Lemma init_Some p name ets ff cts fm dpc s3 :
  FileSource.__init__ (Some p) name ets ff cts fm dpc s3
  = Ok {| FileSource.super :=
            DataSource.__init__ (str_or name p) ets cts fm dpc;
          FileSource.file_options :=
            FileOptions.__init__ ff (Some p) s3 |}.
Proof. reflexivity. Qed.

Lemma init_Ok_inv path name ets ff cts fm dpc s3 d :
  FileSource.__init__ path name ets ff cts fm dpc s3 = Ok d →
  ∃ p, path = Some p
       ∧ d = {| FileSource.super :=
                  DataSource.__init__ (str_or name p) ets cts fm dpc;
                FileSource.file_options :=
                  FileOptions.__init__ ff (Some p) s3 |}.
Proof.
  destruct path as [p|]; simpl; [|discriminate].
  intros [= <-]. by exists p.
Qed.

(** C6: a source constructed from a non-empty path [p] with no name
    supplied is named [p]. *)
Theorem C6_name_defaults_to_path (p : string) ets ff cts fm dpc s3 :
  p ≠ "" →
  ∃ d, FileSource.__init__ (Some p) FileSource.name_default ets ff cts fm
         dpc s3 = Ok d
       ∧ FileSource.name d = p.
Proof. intros _. eexists. split; reflexivity. Qed.

Lemma C6_name_defaults_to_path_witness :
  ∃ d, FileSource.__init__ (Some "my_features.parquet")
         FileSource.name_default (Some "event_timestamp") None (Some "")
         None (Some "") None = Ok d
       ∧ FileSource.name d = "my_features.parquet".
Proof.
  apply (C6_name_defaults_to_path "my_features.parquet"). discriminate.
Defined.

(** C10: a source constructed from a non-empty path [p] with the empty
    string given as its name is named [p]: the empty name is not kept. *)
Theorem C10_empty_name_replaced_by_path (p : string) ets ff cts fm dpc s3 :
  p ≠ "" →
  ∃ d, FileSource.__init__ (Some p) (Some "") ets ff cts fm dpc s3 = Ok d
       ∧ FileSource.name d = p
       ∧ FileSource.name d ≠ "".
Proof. intros Hne. eexists. split; [reflexivity|]. split; [reflexivity|exact Hne]. Qed.

Lemma C10_empty_name_replaced_by_path_witness :
  ∃ d, FileSource.__init__ (Some "s3://bucket/key") (Some "") (Some "ts")
         (Some FileFormat.ParquetFormat) None None None None = Ok d
       ∧ FileSource.name d = "s3://bucket/key"
       ∧ FileSource.name d ≠ "".
Proof.
  apply (C10_empty_name_replaced_by_path "s3://bucket/key"). discriminate.
Defined.

(** C2, as amended: construction fails, with [ValueError], exactly when
    the path is absent; with a path that is present, the empty string
    included, it succeeds and keeps that path. *)
Theorem C2_absent_path_rejected name ets ff cts fm dpc s3 :
  FileSource.__init__ None name ets ff cts fm dpc s3 = Raise ValueError
  ∧ ∀ p : string,
      ∃ d, FileSource.__init__ (Some p) name ets ff cts fm dpc s3 = Ok d
           ∧ FileSource.path d = Some p.
Proof. split; [reflexivity|]. intros p. eexists. split; reflexivity. Qed.

(** C2 as it is written fails: construction with the empty string as
    path does not fail, it gives a source whose path is empty. *)
Lemma C2_empty_path_accepted :
  FileSource.__init__ (Some "") (Some "") (Some "") None (Some "") None
    (Some "") None
  = Ok {| FileSource.super :=
            {| DataSource.name := "";
               DataSource.event_timestamp_column := "";
               DataSource.created_timestamp_column := "";
               DataSource.field_mapping := ∅;
               DataSource.date_partition_column := "" |};
          FileSource.file_options :=
            {| FileOptions._file_format := None;
               FileOptions._file_url := Some "";
               FileOptions._s3_endpoint_override := None |} |}
  ∧ FileSource.__init__ (Some "") (Some "") (Some "") None (Some "") None
      (Some "") None
    ≠ Raise ValueError.
Proof. split; [reflexivity | discriminate]. Qed.

(** C9: a source constructed without a name from a non-empty path [p]
    is still named [p] after [file_url] of its [file_options] has been set
    to another value [q]; it is the path that changed. *)
Theorem C9_name_fixed_at_construction (p : string) ets ff cts fm dpc s3
    (q : option string) :
  p ≠ "" → q ≠ Some p →
  ∃ d, FileSource.__init__ (Some p) FileSource.name_default ets ff cts fm
         dpc s3 = Ok d
       ∧ FileSource.name (FileSource.assign_file_url d q) = p
       ∧ FileSource.path (FileSource.assign_file_url d q) = q
       ∧ FileSource.path (FileSource.assign_file_url d q)
         ≠ Some (FileSource.name (FileSource.assign_file_url d q)).
Proof.
  intros _ Hq. eexists. split; [reflexivity|]. repeat split. exact Hq.
Qed.

Lemma C9_name_fixed_at_construction_witness :
  ∃ d, FileSource.__init__ (Some "a.parquet") FileSource.name_default
         (Some "") None (Some "") None (Some "") None = Ok d
       ∧ FileSource.name (FileSource.assign_file_url d (Some "b.parquet"))
         = "a.parquet"
       ∧ FileSource.path (FileSource.assign_file_url d (Some "b.parquet"))
         = Some "b.parquet"
       ∧ FileSource.path (FileSource.assign_file_url d (Some "b.parquet"))
         ≠ Some (FileSource.name
                   (FileSource.assign_file_url d (Some "b.parquet"))).
Proof.
  apply (C9_name_fixed_at_construction "a.parquet"); discriminate.
Defined.

(** ** Equality *)

Lemma py_and_true (a b : Result bool) :
  py_and a b = Ok true ↔ a = Ok true ∧ b = Ok true.
Proof.
  destruct a as [[]|e]; simpl; split; try done.
  - by intros [_ ?].
  - by intros [? _].
  - by intros [? _].
Qed.

Lemma Ok_bool_decide_true (P : Prop) `{Decision P} :
  Ok (bool_decide P) = Ok true ↔ P.
Proof.
  split.
  - intros [= H']. by apply bool_decide_eq_true in H'.
  - intros HP. f_equal. by apply bool_decide_eq_true.
Qed.

(** Two optional formats compare to a boolean when both are absent or
    both are present, and the comparison raises when one only is. *)
Lemma file_format_eq_cases (a b : option FileFormat.t) :
  file_format_eq a b
  = match a, b with
    | None, None => Ok true
    | Some f, Some g => Ok (bool_decide (f = g))
    | _, _ => Raise AttributeError
    end.
Proof. by destruct a as [[]|], b as [[]|]. Qed.

Lemma file_format_eq_true (a b : option FileFormat.t) :
  file_format_eq a b = Ok true ↔ a = b.
Proof.
  rewrite file_format_eq_cases. destruct a as [f|], b as [g|]; try done.
  rewrite Ok_bool_decide_true. split; congruence.
Qed.

Lemma eq_true_iff (d1 d2 : FileSource.t) :
  FileSource.__eq__ d1 (FileSource.PyFileSource d2) = Ok true ↔
  FileSource.name d1 = FileSource.name d2
  ∧ FileSource.path d1 = FileSource.path d2
  ∧ FileOptions.file_format (FileSource.file_options d1)
    = FileOptions.file_format (FileSource.file_options d2)
  ∧ FileSource.event_timestamp_column d1
    = FileSource.event_timestamp_column d2
  ∧ FileSource.created_timestamp_column d1
    = FileSource.created_timestamp_column d2
  ∧ FileSource.field_mapping d1 = FileSource.field_mapping d2
  ∧ FileOptions.s3_endpoint_override (FileSource.file_options d1)
    = FileOptions.s3_endpoint_override (FileSource.file_options d2).
Proof.
  unfold FileSource.__eq__, FileSource.path.
  rewrite !py_and_true, !Ok_bool_decide_true, file_format_eq_true. tauto.
Qed.


(** The date partition column really is left aside: these two sources
    differ in it and compare equal. *)
Example eq_ignores_date_partition_column :
  ∃ d1 d2,
    FileSource.__init__ (Some "f.parquet") (Some "f") (Some "ts") None
      (Some "") None (Some "day") None = Ok d1
    ∧ FileSource.__init__ (Some "f.parquet") (Some "f") (Some "ts") None
        (Some "") None (Some "hour") None = Ok d2
    ∧ FileSource.date_partition_column d1 ≠ FileSource.date_partition_column d2
    ∧ FileSource.__eq__ d1 (FileSource.PyFileSource d2) = Ok true.
Proof.
  do 2 eexists. split; [reflexivity|]. split; [reflexivity|].
  split; [discriminate | by vm_compute].
Qed.

(** C5: comparing a file source with anything that is not a file source
    raises [TypeError]; no boolean comes back. *)
Theorem C5_eq_other_variant_raises (d : FileSource.t)
    (x : FileSource.PyObject) :
  FileSource.isinstance_FileSource x = false →
  FileSource.__eq__ d x = Raise TypeError
  ∧ ∀ b, FileSource.__eq__ d x ≠ Ok b.
Proof.
  intros Hx. destruct x; simpl in Hx; try discriminate Hx;
    (split; [reflexivity | discriminate]).
Qed.

Lemma C5_eq_other_variant_raises_witness :
  FileSource.__eq__ example_source FileSource.PyNone = Raise TypeError
  ∧ ∀ b, FileSource.__eq__ example_source FileSource.PyNone ≠ Ok b.
Proof.
  apply (C5_eq_other_variant_raises example_source FileSource.PyNone).
  reflexivity.
Defined.

(** ** From a saved dataset to a source *)




(** ** The wire round trip *)

Lemma FileFormat_from_to_proto (f : FileFormat.t) :
  FileFormat.from_proto (FileFormat.to_proto f) = Some f.
Proof. by destruct f. Qed.

Lemma FileOptions_to_proto_format (fo : FileOptions.t) :
  FileFormat.from_proto
    (DataSourceProto.fo_file_format (FileOptions.to_proto fo))
  = FileOptions.file_format fo.
Proof.
  unfold FileOptions.to_proto. simpl.
  destruct (FileOptions.file_format fo) as [f|]; simpl; [|reflexivity].
  apply FileFormat_from_to_proto.
Qed.

Lemma str_or_self (s : string) : str_or (Some s) "" = s.
Proof.
  destruct (decide (s = "")) as [->|Hne]; [reflexivity|].
  by apply str_or_nonempty.
Qed.

(** The override read from the decoded options is the one read from the
    options that were encoded: absent and empty both travel as the empty
    string and both read as absent. *)
Lemma s3_endpoint_override_wire (ff : option FileFormat.t)
    (url : option string) (fo : FileOptions.t) :
  FileOptions.s3_endpoint_override
    (FileOptions.__init__ ff url
       (Some (DataSourceProto.fo_s3_endpoint_override
                (FileOptions.to_proto fo))))
  = FileOptions.s3_endpoint_override fo.
Proof.
  unfold FileOptions.to_proto. simpl.
  pose proof (s3_endpoint_override_not_empty fo) as Hne.
  destruct (FileOptions.s3_endpoint_override fo) as [s|]; simpl.
  - unfold FileOptions.s3_endpoint_override. simpl.
    rewrite bool_decide_eq_false_2; [reflexivity | exact Hne].
  - reflexivity.
Qed.

Lemma init_constructed path name ets ff cts fm dpc s3 d :
  FileSource.__init__ path name ets ff cts fm dpc s3 = Ok d → constructed d.
Proof.
  intros (p & -> & ->)%init_Ok_inv. exists p. split; [reflexivity|].
  unfold FileSource.name. simpl. intros Hname.
  destruct (str_or_cases name p) as [[_ Hne]|Hp]; congruence.
Qed.

Lemma from_proto_constructed (m : DataSourceProto.t) :
  ∃ d, FileSource.from_proto m = Ok d ∧ constructed d.
Proof.
  unfold FileSource.from_proto. rewrite init_Some. eexists.
  split; [reflexivity|]. eapply init_constructed. apply init_Some.
Qed.

(** Encoding then decoding a source that has a path, and an empty name
    only with the empty path, gives a source equal to it, with its date
    partition column as well. *)
Lemma roundtrip_constructed (d : FileSource.t) :
  constructed d →
  ∃ d', FileSource.from_proto (FileSource.to_proto d) = Ok d'
        ∧ FileSource.__eq__ d' (FileSource.PyFileSource d) = Ok true
        ∧ FileSource.__eq__ d (FileSource.PyFileSource d') = Ok true
        ∧ FileSource.date_partition_column d'
          = FileSource.date_partition_column d.
Proof.
  intros (p & Hpath & Hname).
  unfold FileSource.from_proto. rewrite init_Some. eexists.
  split; [reflexivity|].
  assert (Hfields :
    ∀ d', d' = {| FileSource.super :=
                    DataSource.__init__
                      (str_or (Some (DataSourceProto.name (FileSource.to_proto d)))
                         (DataSourceProto.fo_file_url
                            (DataSourceProto.file_options (FileSource.to_proto d))))
                      (Some (DataSourceProto.event_timestamp_column (FileSource.to_proto d)))
                      (Some (DataSourceProto.created_timestamp_column (FileSource.to_proto d)))
                      (Some (DataSourceProto.field_mapping (FileSource.to_proto d)))
                      (Some (DataSourceProto.date_partition_column (FileSource.to_proto d)));
                  FileSource.file_options :=
                    FileOptions.__init__
                      (FileFormat.from_proto
                         (DataSourceProto.fo_file_format
                            (DataSourceProto.file_options (FileSource.to_proto d))))
                      (Some (DataSourceProto.fo_file_url
                               (DataSourceProto.file_options (FileSource.to_proto d))))
                      (Some (DataSourceProto.fo_s3_endpoint_override
                               (DataSourceProto.file_options (FileSource.to_proto d)))) |} →
      FileSource.name d' = FileSource.name d
      ∧ FileSource.path d' = FileSource.path d
      ∧ FileOptions.file_format (FileSource.file_options d')
        = FileOptions.file_format (FileSource.file_options d)
      ∧ FileSource.event_timestamp_column d'
        = FileSource.event_timestamp_column d
      ∧ FileSource.created_timestamp_column d'
        = FileSource.created_timestamp_column d
      ∧ FileSource.field_mapping d' = FileSource.field_mapping d
      ∧ FileOptions.s3_endpoint_override (FileSource.file_options d')
        = FileOptions.s3_endpoint_override (FileSource.file_options d)
      ∧ FileSource.date_partition_column d'
        = FileSource.date_partition_column d).
  { intros d' ->.
    assert (Hurl : DataSourceProto.fo_file_url
                     (DataSourceProto.file_options (FileSource.to_proto d)) = p).
    { simpl. unfold FileSource.path in Hpath. by rewrite Hpath. }
    rewrite Hurl.
    split.
    { change (str_or (Some (FileSource.name d)) p = FileSource.name d).
      destruct (decide (FileSource.name d = "")) as [Hemp|Hne].
      - rewrite Hemp, str_or_empty. exact (Hname Hemp).
      - by apply str_or_nonempty. }
    split; [by rewrite Hpath|].
    split; [apply (FileOptions_to_proto_format (FileSource.file_options d))|].
    split; [apply str_or_self|].
    split; [apply str_or_self|].
    split; [apply dict_or_empty|].
    split; [apply s3_endpoint_override_wire|].
    apply str_or_self. }
  specialize (Hfields _ eq_refl).
  destruct Hfields as (H1 & H2 & H3 & H4 & H5 & H6 & H7 & H8).
  split; [apply eq_true_iff; by repeat split|].
  split; [apply eq_true_iff; by repeat split|].
  exact H8.
Qed.

(** C1, as amended: for a source [d] with a concrete file format,
    decoding the message that encodes [d] gives a source equal to [d]
    exactly when [d] has a path and has an empty name only over the empty
    path.  Every source that construction or decoding returns is such a
    source. *)
Theorem C1_decode_encode_equal_iff_constructed (d : FileSource.t)
    (f : FileFormat.t) :
  FileOptions.file_format (FileSource.file_options d) = Some f →
  ((∃ d', FileSource.from_proto (FileSource.to_proto d) = Ok d'
          ∧ FileSource.__eq__ d' (FileSource.PyFileSource d) = Ok true)
   ↔ constructed d)
  ∧ (∀ path name ets ff cts fm dpc s3,
       FileSource.__init__ path name ets ff cts fm dpc s3 = Ok d →
       constructed d)
  ∧ (∀ m, FileSource.from_proto m = Ok d → constructed d).
Proof.
  intros _. split; [split|split].
  - intros (d' & Hdec & Heq).
    destruct (from_proto_constructed (FileSource.to_proto d))
      as (d'' & Hdec' & p & Hp & Hname).
    rewrite Hdec in Hdec'. injection Hdec' as <-.
    apply eq_true_iff in Heq. destruct Heq as (Hn & Hpath & _).
    exists p. rewrite <- Hpath, <- Hn. by split.
  - intros Hc. destruct (roundtrip_constructed d Hc) as (d' & Hdec & Heq & _).
    by exists d'.
  - intros path name ets ff cts fm dpc s3. apply init_constructed.
  - intros m Hm. destruct (from_proto_constructed m) as (d' & Hd' & Hc).
    rewrite Hm in Hd'. by injection Hd' as <-.
Qed.

Lemma C1_decode_encode_equal_iff_constructed_witness :
  ((∃ d', FileSource.from_proto (FileSource.to_proto example_source) = Ok d'
          ∧ FileSource.__eq__ d' (FileSource.PyFileSource example_source)
            = Ok true)
   ↔ constructed example_source)
  ∧ (∀ path name ets ff cts fm dpc s3,
       FileSource.__init__ path name ets ff cts fm dpc s3
       = Ok example_source →
       constructed example_source)
  ∧ (∀ m, FileSource.from_proto m = Ok example_source →
          constructed example_source).
Proof.
  apply (C1_decode_encode_equal_iff_constructed example_source
           FileFormat.ParquetFormat).
  reflexivity.
Defined.

(** C1 as it is written fails.  A source constructed with the empty path
    and the parquet format, and then given a path through the setter of
    its file options, has a concrete format and an empty name; its
    message decodes to a source named after the path, and the two compare
    unequal. *)
Lemma C1_mutated_source_not_equal :
  FileSource.__init__ (Some "") (Some "") (Some "")
    (Some FileFormat.ParquetFormat) (Some "") None (Some "") None
  = Ok empty_path_source
  ∧ FileSource.assign_file_url empty_path_source (Some "x.parquet")
    = mutated_source
  ∧ FileOptions.file_format (FileSource.file_options mutated_source)
    = Some FileFormat.ParquetFormat
  ∧ FileSource.from_proto (FileSource.to_proto mutated_source)
    = Ok mutated_decoded
  ∧ FileSource.__eq__ mutated_decoded (FileSource.PyFileSource mutated_source)
    = Ok false.
Proof. repeat split; by vm_compute. Qed.

(** After construction with the empty path, setting [file_url] leaves a
    source with an empty name over a non-empty path, which construction
    never returns; decoding its message names it after the path. *)
Example roundtrip_outside_constructed :
  ∃ d0 d',
    FileSource.__init__ (Some "") (Some "") (Some "")
      (Some FileFormat.ParquetFormat) (Some "") None (Some "") None = Ok d0
    ∧ ¬ constructed (FileSource.assign_file_url d0 (Some "x.parquet"))
    ∧ FileSource.from_proto
        (FileSource.to_proto (FileSource.assign_file_url d0 (Some "x.parquet")))
      = Ok d'
    ∧ FileSource.name d' = "x.parquet".
Proof.
  do 2 eexists. split; [reflexivity|]. split.
  - intros (p & Hp & Hname). simpl in Hp. injection Hp as <-.
    discriminate (Hname eq_refl).
  - split; reflexivity.
Qed.

(** ** Resolving a path to a file system *)

Lemma replace_from_skip (old new : string) (k : nat) (s : string) :
  replace_from old new k s = replace_from old new 0 (str_drop k s).
Proof.
  revert k. induction s as [|c rest IH]; intros [|k]; try reflexivity.
  simpl replace_from at 1. simpl str_drop. apply IH.
Qed.

Lemma replace_absent (old new s : string) :
  occurs old s = false → replace s old new = s.
Proof.
  unfold replace. induction s as [|c rest IH]; [reflexivity|].
  simpl occurs. intros [Hhere Hlater]%orb_false_iff.
  simpl replace_from. simpl in Hhere. rewrite Hhere.
  f_equal. by apply IH.
Qed.

(** Where the pattern leads the string and occurs nowhere after, deleting
    every occurrence and deleting the leading one are the same. *)
Lemma replace_single_prefix (old s : string) :
  old ≠ "" →
  String.prefix old s = true →
  occurs old (removeprefix s old) = false →
  replace s old "" = removeprefix s old.
Proof.
  intros Hold Hpre. unfold removeprefix. rewrite Hpre. intros Hocc.
  destruct old as [|a old']; [done|].
  destruct s as [|c rest]; [discriminate Hpre|].
  unfold replace. simpl replace_from. simpl in Hpre. rewrite Hpre.
  simpl String.length. rewrite Nat.sub_0_r. simpl.
  rewrite replace_from_skip. simpl in Hocc.
  exact (replace_absent _ "" _ Hocc).
Qed.

Lemma create_filesystem_and_path_local (path : string)
    (s3_endpoint_override : option string) :
  startswith path "s3://" = false →
  FileSource.create_filesystem_and_path path s3_endpoint_override
  = (None, path).
Proof.
  intros H. unfold FileSource.create_filesystem_and_path. by rewrite H.
Qed.

(** An s3 path gets a handle, configured with the endpoint when one that
    is not empty is given, and loses every occurrence of the scheme. *)
Lemma create_filesystem_and_path_s3 (path : string)
    (s3_endpoint_override : option string) :
  startswith path "s3://" = true →
  FileSource.create_filesystem_and_path path s3_endpoint_override
  = (Some {| client_kwargs :=
               match s3_endpoint_override with
               | Some e =>
                   if bool_decide (e = "") then None
                   else Some {[ "endpoint_url" := e ]}
               | None => None
               end |},
     replace path "s3://" "").
Proof.
  intros H. unfold FileSource.create_filesystem_and_path. rewrite H.
  destruct s3_endpoint_override as [e|]; [|reflexivity].
  rewrite str_truthy_Some. by case_bool_decide.
Qed.

(** With the scheme at the head of the path only, the path that comes
    back is the path without its scheme prefix. *)
Lemma create_filesystem_and_path_s3_once (path : string)
    (s3_endpoint_override : option string) :
  startswith path "s3://" = true →
  occurs "s3://" (removeprefix path "s3://") = false →
  (FileSource.create_filesystem_and_path path s3_endpoint_override).2
  = removeprefix path "s3://".
Proof.
  intros H Hocc. rewrite create_filesystem_and_path_s3 by exact H. simpl.
  by apply replace_single_prefix.
Qed.

Example create_filesystem_and_path_bucket_key :
  FileSource.create_filesystem_and_path "s3://bucket/key" None
  = (Some {| client_kwargs := None |}, "bucket/key").
Proof. reflexivity. Qed.

Example create_filesystem_and_path_local_key :
  FileSource.create_filesystem_and_path "/local/key" None
  = (None, "/local/key").
Proof. reflexivity. Qed.

Example create_filesystem_and_path_endpoint :
  FileSource.create_filesystem_and_path "s3://bucket/key"
    (Some "http://localhost:9000")
  = (Some {| client_kwargs :=
               Some {[ "endpoint_url" := "http://localhost:9000" ]} |},
     "bucket/key").
Proof. reflexivity. Qed.

(** C4 fails on a path in which the scheme occurs again after the prefix:
    [replace] deletes that occurrence too, so the path that comes back is
    not the path with its prefix stripped. *)
Theorem C4_scheme_deleted_beyond_prefix :
  startswith "s3://bucket/s3://key" "s3://" = true
  ∧ FileSource.create_filesystem_and_path "s3://bucket/s3://key" None
    = (Some {| client_kwargs := None |}, "bucket/key")
  ∧ removeprefix "s3://bucket/s3://key" "s3://" = "bucket/s3://key"
  ∧ (FileSource.create_filesystem_and_path "s3://bucket/s3://key" None).2
    ≠ removeprefix "s3://bucket/s3://key" "s3://".
Proof.
  split; [reflexivity|]. split; [reflexivity|]. split; [reflexivity|].
  discriminate.
Qed.

(** * Further properties *)

(** ** File options on the wire *)

Lemma default_s3_endpoint_override (s : string) :
  default "" (FileOptions.s3_endpoint_override
                (FileOptions.__init__ None None (Some s))) = s.
Proof.
  unfold FileOptions.s3_endpoint_override. simpl.
  case_bool_decide as H; [by inversion H | reflexivity].
Qed.

(** Encoding what a message decodes to keeps the url and the override
    and chooses between two formats: a sub-message without a format is
    left out. *)
Lemma FileOptions_to_proto_from_proto (m : DataSourceProto.FileOptions) :
  FileOptions.to_proto (FileOptions.from_proto m)
  = {| DataSourceProto.fo_file_format :=
         match DataSourceProto.fo_file_format m with
         | format_empty => format_unset
         | fmt => fmt
         end;
       DataSourceProto.fo_file_url := DataSourceProto.fo_file_url m;
       DataSourceProto.fo_s3_endpoint_override :=
         DataSourceProto.fo_s3_endpoint_override m |}.
Proof.
  destruct m as [fmt url s3].
  unfold FileOptions.to_proto, FileOptions.from_proto,
    DataSourceProto.FileOptions_new. simpl. f_equal.
  - by destruct fmt.
  - apply (default_s3_endpoint_override s3).
Qed.

(** No encoding holds a format sub-message without a format. *)
Lemma FileOptions_to_proto_not_empty (fo : FileOptions.t) :
  DataSourceProto.fo_file_format (FileOptions.to_proto fo) ≠ format_empty.
Proof.
  unfold FileOptions.to_proto. simpl.
  by destruct (FileOptions.file_format fo) as [[]|].
Qed.

Lemma FileOptions_to_proto_stable (fo : FileOptions.t) :
  FileOptions.to_proto (FileOptions.from_proto (FileOptions.to_proto fo))
  = FileOptions.to_proto fo.
Proof.
  rewrite FileOptions_to_proto_from_proto.
  pose proof (FileOptions_to_proto_not_empty fo) as Hne.
  destruct (FileOptions.to_proto fo) as [[] url s3]; simpl in *; done.
Qed.

Lemma FileOptions_from_proto_stable (m : DataSourceProto.FileOptions) :
  FileOptions.from_proto (FileOptions.to_proto (FileOptions.from_proto m))
  = FileOptions.from_proto m.
Proof.
  rewrite FileOptions_to_proto_from_proto.
  by destruct m as [[] url s3].
Qed.

(** X1: decoding a file options message and encoding the result gives the
    message back exactly when the message does not hold a format
    sub-message without a format; such a sub-message is left out, and the
    url and the override come back in every case. *)
Theorem X1_FileOptions_message_round_trip (m : DataSourceProto.FileOptions) :
  (FileOptions.to_proto (FileOptions.from_proto m) = m
   ↔ DataSourceProto.fo_file_format m ≠ format_empty)
  ∧ (DataSourceProto.fo_file_format m = format_empty →
     DataSourceProto.fo_file_format
       (FileOptions.to_proto (FileOptions.from_proto m)) = format_unset)
  ∧ DataSourceProto.fo_file_url
      (FileOptions.to_proto (FileOptions.from_proto m))
    = DataSourceProto.fo_file_url m
  ∧ DataSourceProto.fo_s3_endpoint_override
      (FileOptions.to_proto (FileOptions.from_proto m))
    = DataSourceProto.fo_s3_endpoint_override m.
Proof.
  rewrite FileOptions_to_proto_from_proto.
  destruct m as [fmt url s3]. simpl.
  split; [|split; [by intros ->|done]].
  destruct fmt; split; done.
Qed.

(** X2: encoding file options and decoding the message keeps the format
    and what the override reads as; an absent url comes back as the empty
    string, and the override is stored as a string, never as [None]. *)
Theorem X2_FileOptions_round_trip (fo : FileOptions.t) :
  FileOptions.file_format (FileOptions.from_proto (FileOptions.to_proto fo))
  = FileOptions.file_format fo
  ∧ FileOptions.file_url (FileOptions.from_proto (FileOptions.to_proto fo))
    = Some (default "" (FileOptions.file_url fo))
  ∧ FileOptions.s3_endpoint_override
      (FileOptions.from_proto (FileOptions.to_proto fo))
    = FileOptions.s3_endpoint_override fo
  ∧ FileOptions._s3_endpoint_override
      (FileOptions.from_proto (FileOptions.to_proto fo))
    = Some (default "" (FileOptions.s3_endpoint_override fo)).
Proof.
  split; [apply FileOptions_to_proto_format|].
  split; [reflexivity|].
  split; [|reflexivity].
  apply (s3_endpoint_override_wire _ _ fo).
Qed.

(** X3: the override never reads as the empty string: it reads as the stored
    value, except that a stored empty string reads as absent. *)
Theorem X3_s3_endpoint_override_normalised (fo : FileOptions.t) :
  FileOptions.s3_endpoint_override fo ≠ Some ""
  ∧ (FileOptions._s3_endpoint_override fo ≠ Some "" →
     FileOptions.s3_endpoint_override fo
     = FileOptions._s3_endpoint_override fo)
  ∧ (FileOptions.s3_endpoint_override fo = None ↔
     FileOptions._s3_endpoint_override fo = None
     ∨ FileOptions._s3_endpoint_override fo = Some "").
Proof.
  split; [apply s3_endpoint_override_not_empty|].
  unfold FileOptions.s3_endpoint_override.
  case_bool_decide as H; split; try done.
  - split; [by right|done].
  - split; [by left | intros [?|?]; done].
Qed.

(** ** Sources on the wire *)

Lemma str_or_fixed (n p : string) :
  str_or (Some n) p = n ↔ (n = "" → p = "").
Proof.
  destruct (decide (n = "")) as [->|Hne].
  - rewrite str_or_empty. split; [by intros -> | by intros ->].
  - rewrite str_or_nonempty by done. split; [intros _ ?; done | done].
Qed.

(** What decoding returns, field by field. *)
Lemma from_proto_Ok (m : DataSourceProto.t) :
  FileSource.from_proto m
  = Ok {| FileSource.super :=
            {| DataSource.name :=
                 str_or (Some (DataSourceProto.name m))
                   (DataSourceProto.fo_file_url (DataSourceProto.file_options m));
               DataSource.event_timestamp_column :=
                 DataSourceProto.event_timestamp_column m;
               DataSource.created_timestamp_column :=
                 DataSourceProto.created_timestamp_column m;
               DataSource.field_mapping := DataSourceProto.field_mapping m;
               DataSource.date_partition_column :=
                 DataSourceProto.date_partition_column m |};
          FileSource.file_options :=
            FileOptions.from_proto (DataSourceProto.file_options m) |}.
Proof.
  unfold FileSource.from_proto. rewrite init_Some. do 2 f_equal.
  unfold DataSource.__init__. rewrite !str_or_self, dict_or_empty.
  reflexivity.
Qed.

(** The message of a decoded source is the message it was decoded from,
    with the name that decoding chose, the tag of a file source, and the
    file options as they are encoded again. *)
Lemma to_proto_from_proto (m : DataSourceProto.t) (d : FileSource.t) :
  FileSource.from_proto m = Ok d →
  FileSource.to_proto d
  = {| DataSourceProto.name :=
         str_or (Some (DataSourceProto.name m))
           (DataSourceProto.fo_file_url (DataSourceProto.file_options m));
       DataSourceProto.type := DataSourceProto.BATCH_FILE;
       DataSourceProto.field_mapping := DataSourceProto.field_mapping m;
       DataSourceProto.file_options :=
         FileOptions.to_proto
           (FileOptions.from_proto (DataSourceProto.file_options m));
       DataSourceProto.event_timestamp_column :=
         DataSourceProto.event_timestamp_column m;
       DataSourceProto.created_timestamp_column :=
         DataSourceProto.created_timestamp_column m;
       DataSourceProto.date_partition_column :=
         DataSourceProto.date_partition_column m |}.
Proof. rewrite from_proto_Ok. by intros [= <-]. Qed.

(** X4: decoding never raises.  Every message, also one with an empty
    [file_url], decodes to a source that has that url as its path, the
    name of the message or, when that is empty, the url as its name, and
    the other fields of the message as they are. *)
Theorem X4_from_proto_succeeds (m : DataSourceProto.t) :
  ∃ d, FileSource.from_proto m = Ok d
       ∧ FileSource.path d
         = Some (DataSourceProto.fo_file_url (DataSourceProto.file_options m))
       ∧ FileSource.name d
         = (if bool_decide (DataSourceProto.name m = "")
            then DataSourceProto.fo_file_url (DataSourceProto.file_options m)
            else DataSourceProto.name m)
       ∧ FileSource.event_timestamp_column d
         = DataSourceProto.event_timestamp_column m
       ∧ FileSource.created_timestamp_column d
         = DataSourceProto.created_timestamp_column m
       ∧ FileSource.field_mapping d = DataSourceProto.field_mapping m
       ∧ FileSource.date_partition_column d
         = DataSourceProto.date_partition_column m
       ∧ FileOptions._s3_endpoint_override (FileSource.file_options d)
         = Some (DataSourceProto.fo_s3_endpoint_override
                   (DataSourceProto.file_options m)).
Proof.
  eexists. split; [apply from_proto_Ok|].
  split; [reflexivity|]. split; [|by repeat split].
  unfold FileSource.name. simpl. case_bool_decide as Hn.
  - by rewrite Hn.
  - by apply str_or_nonempty.
Qed.

(** X28: the file options of a decoded source are what
    [FileOptions.from_proto] makes of the nested message, although
    [FileSource.from_proto] builds them through the constructor: the two
    decoders agree, and both store the override of the message as it is,
    an empty one as the empty string. *)
Theorem X28_decoders_agree (m : DataSourceProto.t) :
  ∃ d, FileSource.from_proto m = Ok d
       ∧ FileSource.file_options d
         = FileOptions.from_proto (DataSourceProto.file_options m)
       ∧ FileOptions._s3_endpoint_override (FileSource.file_options d)
         = Some (DataSourceProto.fo_s3_endpoint_override
                   (DataSourceProto.file_options m)).
Proof. eexists. split; [apply from_proto_Ok|]. by split. Qed.

(** X5: the message of a source is stable under the round trip exactly
    when the round trip keeps the name: encoding the source decoded from
    the message of [d] gives the message of [d] again if and only if [d]
    has an empty name only with an empty or absent path.  The two
    messages differ in nothing but the name. *)
Theorem X5_message_stable_iff_name_kept (d : FileSource.t) :
  ∃ d', FileSource.from_proto (FileSource.to_proto d) = Ok d'
        ∧ (FileSource.to_proto d' = FileSource.to_proto d
           ↔ (FileSource.name d = "" → default "" (FileSource.path d) = ""))
        ∧ DataSourceProto.type (FileSource.to_proto d')
          = DataSourceProto.type (FileSource.to_proto d)
        ∧ DataSourceProto.file_options (FileSource.to_proto d')
          = DataSourceProto.file_options (FileSource.to_proto d)
        ∧ DataSourceProto.field_mapping (FileSource.to_proto d')
          = DataSourceProto.field_mapping (FileSource.to_proto d)
        ∧ DataSourceProto.event_timestamp_column (FileSource.to_proto d')
          = DataSourceProto.event_timestamp_column (FileSource.to_proto d)
        ∧ DataSourceProto.created_timestamp_column (FileSource.to_proto d')
          = DataSourceProto.created_timestamp_column (FileSource.to_proto d)
        ∧ DataSourceProto.date_partition_column (FileSource.to_proto d')
          = DataSourceProto.date_partition_column (FileSource.to_proto d).
Proof.
  eexists. split; [apply from_proto_Ok|].
  rewrite (to_proto_from_proto _ _ (from_proto_Ok (FileSource.to_proto d))).
  change (DataSourceProto.file_options (FileSource.to_proto d))
    with (FileOptions.to_proto (FileSource.file_options d)).
  rewrite FileOptions_to_proto_stable.
  change (DataSourceProto.name (FileSource.to_proto d))
    with (FileSource.name d).
  change (DataSourceProto.fo_file_url
            (FileOptions.to_proto (FileSource.file_options d)))
    with (default "" (FileSource.path d)).
  split; [|by repeat split].
  rewrite <- str_or_fixed. split.
  - intros H. exact (f_equal DataSourceProto.name H).
  - intros H. unfold FileSource.to_proto, DataSourceProto.new,
      DataSourceProto.set_event_timestamp_column,
      DataSourceProto.set_created_timestamp_column,
      DataSourceProto.set_date_partition_column.
    cbn -[str_or FileOptions.to_proto]. by rewrite H.
Qed.

(** X6: a decoded source is a fixed point of the round trip: encoding it
    and decoding again returns the very same source, all fields and the
    stored override included. *)
Theorem X6_decoded_source_fixed_point (m : DataSourceProto.t)
    (d : FileSource.t) :
  FileSource.from_proto m = Ok d →
  FileSource.from_proto (FileSource.to_proto d) = Ok d.
Proof.
  intros Hd. rewrite (to_proto_from_proto m d Hd).
  rewrite from_proto_Ok in Hd. injection Hd as <-.
  rewrite from_proto_Ok.
  cbn -[str_or FileOptions.to_proto FileOptions.from_proto].
  by rewrite str_or_again, FileOptions_from_proto_stable.
Qed.

Lemma X6_decoded_source_fixed_point_witness :
  FileSource.from_proto (FileSource.to_proto example_decoded)
  = Ok example_decoded.
Proof.
  apply (X6_decoded_source_fixed_point example_message example_decoded).
  reflexivity.
Defined.

(** X7: the round trip of any source, constructed or changed since, gives
    a source that construction could have returned.  It keeps every field
    but two: an absent path comes back as the empty path, and an empty
    name comes back as the path. *)
Theorem X7_round_trip_of_any_source (d : FileSource.t) :
  ∃ d', FileSource.from_proto (FileSource.to_proto d) = Ok d'
        ∧ constructed d'
        ∧ FileSource.path d' = Some (default "" (FileSource.path d))
        ∧ FileSource.name d'
          = (if bool_decide (FileSource.name d = "")
             then default "" (FileSource.path d)
             else FileSource.name d)
        ∧ FileOptions.file_format (FileSource.file_options d')
          = FileOptions.file_format (FileSource.file_options d)
        ∧ FileSource.event_timestamp_column d'
          = FileSource.event_timestamp_column d
        ∧ FileSource.created_timestamp_column d'
          = FileSource.created_timestamp_column d
        ∧ FileSource.field_mapping d' = FileSource.field_mapping d
        ∧ FileSource.date_partition_column d'
          = FileSource.date_partition_column d
        ∧ FileOptions.s3_endpoint_override (FileSource.file_options d')
          = FileOptions.s3_endpoint_override (FileSource.file_options d).
Proof.
  destruct (from_proto_constructed (FileSource.to_proto d)) as (d' & Hd' & Hc).
  exists d'. split; [exact Hd'|]. split; [exact Hc|].
  rewrite from_proto_Ok in Hd'. injection Hd' as <-.
  split; [reflexivity|].
  split.
  { change (str_or (Some (FileSource.name d))
              (default "" (FileSource.path d))
            = if bool_decide (FileSource.name d = "")
              then default "" (FileSource.path d) else FileSource.name d).
    case_bool_decide as Hn.
    - by rewrite Hn.
    - by apply str_or_nonempty. }
  split; [apply (FileOptions_to_proto_format (FileSource.file_options d))|].
  do 4 (split; [reflexivity|]).
  apply (s3_endpoint_override_wire _ _ (FileSource.file_options d)).
Qed.

(** ** Equality as a relation *)

Lemma py_and_raise (a b : Result bool) (e : Exception) :
  py_and a b = Raise e ↔ a = Raise e ∨ (a = Ok true ∧ b = Raise e).
Proof.
  destruct a as [[]|e']; simpl; split; try done.
  - by right.
  - by intros [?|[_ ?]].
  - by intros [?|[? _]].
  - by left.
  - by intros [?|[? _]].
Qed.

Lemma file_format_eq_sym (a b : option FileFormat.t) :
  file_format_eq a b = file_format_eq b a.
Proof. by destruct a as [[]|], b as [[]|]. Qed.

Lemma file_format_eq_raise (a b : option FileFormat.t) (e : Exception) :
  file_format_eq a b = Raise e ↔ e = AttributeError ∧ (a = None ↔ b ≠ None).
Proof.
  rewrite file_format_eq_cases. destruct a as [f|], b as [g|]; simpl.
  - split; [discriminate|]. intros [_ [_ H]].
    assert (Some f = None) as Hf by (apply H; discriminate). discriminate Hf.
  - split.
    + intros [= <-]. split; [reflexivity|].
      split; [discriminate | intros H; by destruct H].
    + by intros [-> _].
  - split.
    + intros [= <-]. split; [reflexivity|]. split; [discriminate | reflexivity].
    + by intros [-> _].
  - split; [discriminate|]. intros [_ [H _]]. by destruct (H eq_refl).
Qed.

(** X8: between two file sources, [d == d] is [True]; [d1 == d2] and
    [d2 == d1] have the same outcome, be it a boolean or an exception;
    and [==] raises exactly when the names and the paths agree and one
    of the two file formats only is absent, and then [AttributeError]. *)
Theorem X8_eq_reflexive_symmetric (d1 d2 : FileSource.t) :
  FileSource.__eq__ d1 (FileSource.PyFileSource d1) = Ok true
  ∧ FileSource.__eq__ d1 (FileSource.PyFileSource d2)
    = FileSource.__eq__ d2 (FileSource.PyFileSource d1)
  ∧ ∀ e, FileSource.__eq__ d1 (FileSource.PyFileSource d2) = Raise e ↔
         e = AttributeError
         ∧ FileSource.name d1 = FileSource.name d2
         ∧ FileSource.path d1 = FileSource.path d2
         ∧ (FileOptions.file_format (FileSource.file_options d1) = None
            ↔ FileOptions.file_format (FileSource.file_options d2) ≠ None).
Proof.
  split; [by apply eq_true_iff|]. split.
  - unfold FileSource.__eq__.
    rewrite (file_format_eq_sym
               (FileOptions.file_format (FileSource.file_options d1))).
    rewrite (bool_decide_ext (FileSource.name d1 = FileSource.name d2)
               (FileSource.name d2 = FileSource.name d1)) by done.
    rewrite (bool_decide_ext
               (FileOptions.file_url (FileSource.file_options d1)
                = FileOptions.file_url (FileSource.file_options d2))
               (FileOptions.file_url (FileSource.file_options d2)
                = FileOptions.file_url (FileSource.file_options d1))) by done.
    rewrite (bool_decide_ext
               (FileSource.event_timestamp_column d1
                = FileSource.event_timestamp_column d2)
               (FileSource.event_timestamp_column d2
                = FileSource.event_timestamp_column d1)) by done.
    rewrite (bool_decide_ext
               (FileSource.created_timestamp_column d1
                = FileSource.created_timestamp_column d2)
               (FileSource.created_timestamp_column d2
                = FileSource.created_timestamp_column d1)) by done.
    rewrite (bool_decide_ext
               (FileSource.field_mapping d1 = FileSource.field_mapping d2)
               (FileSource.field_mapping d2 = FileSource.field_mapping d1))
      by done.
    rewrite (bool_decide_ext
               (FileOptions.s3_endpoint_override (FileSource.file_options d1)
                = FileOptions.s3_endpoint_override (FileSource.file_options d2))
               (FileOptions.s3_endpoint_override (FileSource.file_options d2)
                = FileOptions.s3_endpoint_override (FileSource.file_options d1)))
      by done.
    reflexivity.
  - intros e. unfold FileSource.__eq__, FileSource.path.
    rewrite !py_and_raise, !Ok_bool_decide_true, file_format_eq_raise.
    split.
    + intros [Hc|[Hn [Hc|[Hu [[-> Hf]|[_ H]]]]]]; try discriminate Hc.
      * done.
      * destruct H as [Hc|[_ [Hc|[_ [Hc|[_ Hc]]]]]]; discriminate Hc.
    + intros (-> & Hn & Hu & Hf). right. split; [done|]. right.
      split; [done|]. by left.
Qed.

(** X9: [==] is transitive among file sources. *)
Theorem X9_eq_transitive (d1 d2 d3 : FileSource.t) :
  FileSource.__eq__ d1 (FileSource.PyFileSource d2) = Ok true →
  FileSource.__eq__ d2 (FileSource.PyFileSource d3) = Ok true →
  FileSource.__eq__ d1 (FileSource.PyFileSource d3) = Ok true.
Proof.
  rewrite !eq_true_iff.
  intros (?&?&?&?&?&?&?) (?&?&?&?&?&?&?). repeat split; congruence.
Qed.

Lemma X9_eq_transitive_witness :
  FileSource.__eq__ example_source
    (FileSource.PyFileSource
       (FileSource.assign_date_partition_column example_decoded "day"))
  = Ok true.
Proof.
  apply (X9_eq_transitive example_source example_decoded
           (FileSource.assign_date_partition_column example_decoded "day"));
    by vm_compute.
Defined.

(** X10: a stored empty override and a stored absent override cannot be
    told apart by [==] or on the wire, though the two sources differ in
    what they store. *)
Theorem X10_empty_and_absent_override_alike (d : FileSource.t) :
  FileSource.__eq__ (FileSource.assign_s3_endpoint_override d (Some ""))
    (FileSource.PyFileSource (FileSource.assign_s3_endpoint_override d None))
  = Ok true
  ∧ FileSource.to_proto (FileSource.assign_s3_endpoint_override d (Some ""))
    = FileSource.to_proto (FileSource.assign_s3_endpoint_override d None)
  ∧ FileSource.assign_s3_endpoint_override d (Some "")
    ≠ FileSource.assign_s3_endpoint_override d None.
Proof.
  split; [by apply eq_true_iff|]. split; [reflexivity|].
  intros H. by injection H.
Qed.

Lemma to_proto_eq_inv (d1 d2 : FileSource.t) :
  FileSource.to_proto d1 = FileSource.to_proto d2 →
  FileSource.name d1 = FileSource.name d2
  ∧ default "" (FileSource.path d1) = default "" (FileSource.path d2)
  ∧ FileOptions.file_format (FileSource.file_options d1)
    = FileOptions.file_format (FileSource.file_options d2)
  ∧ FileSource.event_timestamp_column d1
    = FileSource.event_timestamp_column d2
  ∧ FileSource.created_timestamp_column d1
    = FileSource.created_timestamp_column d2
  ∧ FileSource.field_mapping d1 = FileSource.field_mapping d2
  ∧ FileOptions.s3_endpoint_override (FileSource.file_options d1)
    = FileOptions.s3_endpoint_override (FileSource.file_options d2)
  ∧ FileSource.date_partition_column d1
    = FileSource.date_partition_column d2.
Proof.
  intros H.
  assert (Hfo : FileOptions.to_proto (FileSource.file_options d1)
                = FileOptions.to_proto (FileSource.file_options d2))
    by exact (f_equal DataSourceProto.file_options H).
  split; [exact (f_equal DataSourceProto.name H)|].
  split; [exact (f_equal DataSourceProto.fo_file_url Hfo)|].
  split.
  { rewrite <- (FileOptions_to_proto_format (FileSource.file_options d1)),
      <- (FileOptions_to_proto_format (FileSource.file_options d2)).
    by rewrite Hfo. }
  split; [exact (f_equal DataSourceProto.event_timestamp_column H)|].
  split; [exact (f_equal DataSourceProto.created_timestamp_column H)|].
  split; [exact (f_equal DataSourceProto.field_mapping H)|].
  split; [|exact (f_equal DataSourceProto.date_partition_column H)].
  rewrite <- (s3_endpoint_override_wire None None (FileSource.file_options d1)),
    <- (s3_endpoint_override_wire None None (FileSource.file_options d2)).
  by rewrite Hfo.
Qed.

Lemma to_proto_eq_intro (d1 d2 : FileSource.t) :
  FileSource.name d1 = FileSource.name d2 →
  default "" (FileSource.path d1) = default "" (FileSource.path d2) →
  FileOptions.file_format (FileSource.file_options d1)
  = FileOptions.file_format (FileSource.file_options d2) →
  FileSource.event_timestamp_column d1 = FileSource.event_timestamp_column d2 →
  FileSource.created_timestamp_column d1
  = FileSource.created_timestamp_column d2 →
  FileSource.field_mapping d1 = FileSource.field_mapping d2 →
  FileOptions.s3_endpoint_override (FileSource.file_options d1)
  = FileOptions.s3_endpoint_override (FileSource.file_options d2) →
  FileSource.date_partition_column d1 = FileSource.date_partition_column d2 →
  FileSource.to_proto d1 = FileSource.to_proto d2.
Proof.
  intros Hn Hp Hf He Hc Hm Hs Hd.
  unfold FileSource.to_proto, DataSourceProto.new,
    DataSourceProto.set_event_timestamp_column,
    DataSourceProto.set_created_timestamp_column,
    DataSourceProto.set_date_partition_column, FileOptions.to_proto,
    DataSourceProto.FileOptions_new. simpl.
  unfold FileSource.path in Hp. by rewrite Hn, Hp, Hf, He, Hc, Hm, Hs, Hd.
Qed.

(** X11: two sources that have a path encode to the same message exactly
    when they are equal under [==] and have the same date partition
    column: the message tells apart what equality tells apart, and the
    date partition column besides. *)
Theorem X11_same_message_iff_equal (d1 d2 : FileSource.t) (p1 p2 : string) :
  FileSource.path d1 = Some p1 →
  FileSource.path d2 = Some p2 →
  FileSource.to_proto d1 = FileSource.to_proto d2 ↔
  FileSource.__eq__ d1 (FileSource.PyFileSource d2) = Ok true
  ∧ FileSource.date_partition_column d1 = FileSource.date_partition_column d2.
Proof.
  intros H1 H2. rewrite eq_true_iff. split.
  - intros (Hn & Hp & Hf & He & Hc & Hm & Hs & Hd)%to_proto_eq_inv.
    rewrite H1, H2 in *. simpl in Hp. subst p2. by repeat split.
  - intros ((Hn & Hp & Hf & He & Hc & Hm & Hs) & Hd).
    apply to_proto_eq_intro; try done. by rewrite Hp.
Qed.

Lemma X11_same_message_iff_equal_witness :
  FileSource.to_proto example_source = FileSource.to_proto example_decoded ↔
  FileSource.__eq__ example_source (FileSource.PyFileSource example_decoded)
  = Ok true
  ∧ FileSource.date_partition_column example_source
    = FileSource.date_partition_column example_decoded.
Proof.
  apply (X11_same_message_iff_equal example_source example_decoded
           "my_features.parquet" "my_features.parquet");
    reflexivity.
Defined.

(** ** What the constructor keeps *)

(** X12: a name that is given and not empty is kept, whatever the path;
    the name [None] is replaced by the path, as the empty name is. *)
Theorem X12_given_name_kept (p n : string) ets ff cts fm dpc s3 :
  n ≠ "" →
  (∃ d, FileSource.__init__ (Some p) (Some n) ets ff cts fm dpc s3 = Ok d
        ∧ FileSource.name d = n
        ∧ FileSource.path d = Some p)
  ∧ (∃ d, FileSource.__init__ (Some p) None ets ff cts fm dpc s3 = Ok d
          ∧ FileSource.name d = p
          ∧ FileSource.path d = Some p).
Proof.
  intros Hn. split; (eexists; split; [apply init_Some|]);
    (split; [|reflexivity]); unfold FileSource.name; cbn -[str_or].
  - by apply str_or_nonempty.
  - reflexivity.
Qed.

Lemma X12_given_name_kept_witness :
  (∃ d, FileSource.__init__ (Some "s3://bucket/a/drivers.parquet")
          (Some "drivers") None None None None None None = Ok d
        ∧ FileSource.name d = "drivers"
        ∧ FileSource.path d = Some "s3://bucket/a/drivers.parquet")
  ∧ (∃ d, FileSource.__init__ (Some "s3://bucket/a/drivers.parquet")
            None None None None None None None = Ok d
          ∧ FileSource.name d = "s3://bucket/a/drivers.parquet"
          ∧ FileSource.path d = Some "s3://bucket/a/drivers.parquet").
Proof.
  apply (X12_given_name_kept "s3://bucket/a/drivers.parquet" "drivers").
  discriminate.
Defined.

(** X13: whatever the arguments, a source that construction returns has
    the path it was given, a name that is not empty unless that path is
    empty, and the format and the override stored as they were given,
    an empty override included. *)
Theorem X13_construction_invariant path name ets ff cts fm dpc s3
    (d : FileSource.t) :
  FileSource.__init__ path name ets ff cts fm dpc s3 = Ok d →
  ∃ p, path = Some p
       ∧ FileSource.path d = Some p
       ∧ (p ≠ "" → FileSource.name d ≠ "")
       ∧ (FileSource.name d = p ∨ Some (FileSource.name d) = name)
       ∧ FileOptions._file_format (FileSource.file_options d) = ff
       ∧ FileOptions._s3_endpoint_override (FileSource.file_options d) = s3.
Proof.
  intros (p & -> & ->)%init_Ok_inv. exists p.
  split; [reflexivity|]. split; [reflexivity|].
  unfold FileSource.name. cbn -[str_or].
  destruct (str_or_cases name p) as [[Hv Hne]|Hp].
  - split; [done|]. split; [by right | done].
  - rewrite Hp. split; [done|]. split; [by left | done].
Qed.

Lemma X13_construction_invariant_witness :
  ∃ p, Some "my_features.parquet" = Some p
       ∧ FileSource.path example_source = Some p
       ∧ (p ≠ "" → FileSource.name example_source ≠ "")
       ∧ (FileSource.name example_source = p
          ∨ Some (FileSource.name example_source) = Some "")
       ∧ FileOptions._file_format (FileSource.file_options example_source)
         = Some FileFormat.ParquetFormat
       ∧ FileOptions._s3_endpoint_override
           (FileSource.file_options example_source) = None.
Proof.
  apply (X13_construction_invariant (Some "my_features.parquet") (Some "")
           (Some "event_timestamp") (Some FileFormat.ParquetFormat)
           (Some "") None (Some "") None example_source).
  reflexivity.
Defined.

(** ** Resolving a path, continued *)

(** X14: a handle comes back exactly for the paths that start with the
    scheme; without a handle the path comes back as it was given, also
    when the scheme occurs further inside it. *)
Theorem X14_handle_iff_scheme_prefix (path : string)
    (s3_endpoint_override : option string) :
  (is_Some (FileSource.create_filesystem_and_path path s3_endpoint_override).1
   ↔ startswith path "s3://" = true)
  ∧ ((FileSource.create_filesystem_and_path path s3_endpoint_override).1 = None
     → (FileSource.create_filesystem_and_path path s3_endpoint_override).2
       = path).
Proof.
  unfold FileSource.create_filesystem_and_path.
  destruct (startswith path "s3://"); simpl.
  - split; [split; [done | by eexists] | done].
  - split; [split; [by intros [? ?] | done] | done].
Qed.

(** X15: the handle is configured with [endpoint_url] exactly when the
    override is a string that is not empty; the empty override resolves
    as the absent one does. *)
Theorem X15_endpoint_configured_iff_not_empty (path : string) :
  FileSource.create_filesystem_and_path path (Some "")
  = FileSource.create_filesystem_and_path path None
  ∧ ∀ (e : string) (fs : S3FileSystem),
      (FileSource.create_filesystem_and_path path (Some e)).1 = Some fs →
      (e ≠ "" ∧ client_kwargs fs = Some {[ "endpoint_url" := e ]})
      ∨ (e = "" ∧ client_kwargs fs = None).
Proof.
  split; [reflexivity|]. intros e fs.
  unfold FileSource.create_filesystem_and_path.
  destruct (startswith path "s3://"); cbn -[str_truthy]; [|discriminate].
  rewrite str_truthy_Some. intros [= <-]. simpl.
  case_bool_decide; [by right | by left].
Qed.

Lemma prefix_str_drop (p s : string) :
  String.prefix p s = true → p ++ str_drop (String.length p) s = s.
Proof.
  revert s. induction p as [|a p IH]; intros s H.
  - by destruct s.
  - destruct s as [|b s]; [discriminate H|]. simpl in H.
    destruct (Ascii.ascii_dec a b) as [->|]; [|discriminate H].
    change (String b (p ++ str_drop (String.length p) s) = String b s).
    f_equal. by apply IH.
Qed.

(** X16: for a path that starts with the scheme and holds it nowhere
    else, the path that comes back is the path without its prefix. *)
Theorem X16_prefix_stripped_when_scheme_occurs_once (path : string)
    (s3_endpoint_override : option string) :
  startswith path "s3://" = true →
  occurs "s3://" (removeprefix path "s3://") = false →
  (FileSource.create_filesystem_and_path path s3_endpoint_override).2
  = removeprefix path "s3://"
  ∧ "s3://" ++ (FileSource.create_filesystem_and_path path
                  s3_endpoint_override).2 = path.
Proof.
  intros H Hocc.
  rewrite (create_filesystem_and_path_s3_once _ _ H Hocc).
  split; [reflexivity|].
  unfold startswith in H. unfold removeprefix. rewrite H.
  by apply prefix_str_drop.
Qed.

Lemma X16_prefix_stripped_when_scheme_occurs_once_witness :
  (FileSource.create_filesystem_and_path "s3://bucket/a/drivers.parquet"
     (Some "http://localhost:9000")).2
  = removeprefix "s3://bucket/a/drivers.parquet" "s3://"
  ∧ "s3://" ++ (FileSource.create_filesystem_and_path
                  "s3://bucket/a/drivers.parquet"
                  (Some "http://localhost:9000")).2
    = "s3://bucket/a/drivers.parquet".
Proof.
  apply (X16_prefix_stripped_when_scheme_occurs_once
           "s3://bucket/a/drivers.parquet" (Some "http://localhost:9000"));
    reflexivity.
Defined.

(** ** Saved dataset storage *)

Lemma s3_endpoint_override_idem (ff : option FileFormat.t)
    (url : option string) (fo : FileOptions.t) :
  FileOptions.s3_endpoint_override
    (FileOptions.__init__ ff url (FileOptions.s3_endpoint_override fo))
  = FileOptions.s3_endpoint_override fo.
Proof.
  unfold FileOptions.s3_endpoint_override at 1. simpl.
  rewrite bool_decide_eq_false_2; [reflexivity|].
  apply s3_endpoint_override_not_empty.
Qed.

(** X17: [to_data_source] raises [ValueError] exactly for a storage whose
    url is [None]; for any other storage it gives a source named after the
    url, with empty timestamp and partition columns and an empty field
    mapping. *)
Theorem X17_to_data_source_outcome (s : SavedDatasetFileStorage.t) :
  match FileOptions.file_url (SavedDatasetFileStorage.file_options s) with
  | None => SavedDatasetFileStorage.to_data_source s = Raise ValueError
  | Some p =>
      ∃ d, SavedDatasetFileStorage.to_data_source s = Ok d
           ∧ FileSource.path d = Some p
           ∧ FileSource.name d = p
           ∧ FileSource.event_timestamp_column d = ""
           ∧ FileSource.created_timestamp_column d = ""
           ∧ FileSource.date_partition_column d = ""
           ∧ FileSource.field_mapping d = ∅
  end.
Proof.
  unfold SavedDatasetFileStorage.to_data_source.
  destruct (FileOptions.file_url (SavedDatasetFileStorage.file_options s))
    as [p|]; [|reflexivity].
  eexists. split; [apply init_Some|]. by repeat split.
Qed.

(** X18: the source made of a storage encodes to the file options message
    the storage itself encodes to. *)
Theorem X18_source_of_storage_same_message (s : SavedDatasetFileStorage.t)
    (d : FileSource.t) :
  SavedDatasetFileStorage.to_data_source s = Ok d →
  DataSourceProto.file_options (FileSource.to_proto d)
  = SavedDatasetStorageProto.file_storage (SavedDatasetFileStorage.to_proto s).
Proof.
  unfold SavedDatasetFileStorage.to_data_source.
  intros (p & Hp & ->)%init_Ok_inv.
  unfold FileSource.to_proto, SavedDatasetFileStorage.to_proto,
    FileOptions.to_proto. cbn -[FileOptions.s3_endpoint_override].
  rewrite s3_endpoint_override_idem.
  unfold FileOptions.file_url in Hp |- *. by rewrite Hp.
Qed.

Lemma X18_source_of_storage_same_message_witness :
  DataSourceProto.file_options
    (FileSource.to_proto
       {| FileSource.super :=
            DataSource.__init__ "out.parquet" (Some "") (Some "") None
              (Some "");
          FileSource.file_options :=
            FileOptions.__init__ (Some FileFormat.ParquetFormat)
              (Some "out.parquet") None |})
  = SavedDatasetStorageProto.file_storage
      (SavedDatasetFileStorage.to_proto
         (SavedDatasetFileStorage.__init__ "out.parquet"
            (Some FileFormat.ParquetFormat) (Some ""))).
Proof.
  apply (X18_source_of_storage_same_message
           (SavedDatasetFileStorage.__init__ "out.parquet"
              (Some FileFormat.ParquetFormat) (Some ""))).
  reflexivity.
Defined.

Lemma SavedDatasetFileStorage_from_proto_eq (m : SavedDatasetStorageProto.t) :
  SavedDatasetFileStorage.from_proto m
  = SavedDatasetFileStorage.__init__
      (DataSourceProto.fo_file_url (SavedDatasetStorageProto.file_storage m))
      (FileFormat.from_proto
         (DataSourceProto.fo_file_format
            (SavedDatasetStorageProto.file_storage m)))
      (if bool_decide
            (DataSourceProto.fo_s3_endpoint_override
               (SavedDatasetStorageProto.file_storage m) = "")
       then None
       else Some (DataSourceProto.fo_s3_endpoint_override
                    (SavedDatasetStorageProto.file_storage m))).
Proof.
  unfold SavedDatasetFileStorage.from_proto. simpl. f_equal.
  unfold FileOptions.s3_endpoint_override. simpl.
  repeat case_bool_decide; congruence.
Qed.

Lemma storage_to_proto_from_proto (m : SavedDatasetStorageProto.t) :
  SavedDatasetFileStorage.to_proto (SavedDatasetFileStorage.from_proto m)
  = SavedDatasetStorageProto.file_storage_kind
      (FileOptions.to_proto
         (FileOptions.from_proto (SavedDatasetStorageProto.file_storage m))).
Proof.
  rewrite SavedDatasetFileStorage_from_proto_eq.
  unfold SavedDatasetFileStorage.to_proto, SavedDatasetStorageProto.new.
  f_equal.
  destruct (SavedDatasetStorageProto.file_storage m) as [fmt url s3].
  unfold FileOptions.to_proto, FileOptions.from_proto,
    DataSourceProto.FileOptions_new. simpl.
  f_equal.
  unfold FileOptions.s3_endpoint_override. simpl.
  repeat case_bool_decide; simplify_eq; done.
Qed.

(** X19: an envelope of a file storage survives decoding and encoding
    unchanged exactly when its file options do not hold a format
    sub-message without a format; an envelope of no kind comes back as
    the envelope of the default file options; and the envelope that a
    storage encodes to always comes back unchanged. *)
Theorem X19_storage_envelope_round_trip (o : DataSourceProto.FileOptions)
    (s : SavedDatasetFileStorage.t) :
  (SavedDatasetFileStorage.to_proto
     (SavedDatasetFileStorage.from_proto
        (SavedDatasetStorageProto.file_storage_kind o))
   = SavedDatasetStorageProto.file_storage_kind o
   ↔ DataSourceProto.fo_file_format o ≠ format_empty)
  ∧ SavedDatasetFileStorage.to_proto
      (SavedDatasetFileStorage.from_proto SavedDatasetStorageProto.kind_unset)
    = SavedDatasetStorageProto.file_storage_kind
        (DataSourceProto.FileOptions_new None None None)
  ∧ SavedDatasetFileStorage.to_proto
      (SavedDatasetFileStorage.from_proto (SavedDatasetFileStorage.to_proto s))
    = SavedDatasetFileStorage.to_proto s.
Proof.
  rewrite !storage_to_proto_from_proto. split; [|split].
  - simpl. rewrite FileOptions_to_proto_from_proto.
    destruct o as [[] url s3]; simpl; split; done.
  - reflexivity.
  - unfold SavedDatasetFileStorage.to_proto, SavedDatasetStorageProto.new.
    simpl. by rewrite FileOptions_to_proto_stable.
Qed.

(** X20: encoding a storage and decoding the envelope gives the storage
    back, except that an override stored as the empty string is stored as
    [None] afterwards: unlike a decoded source, a decoded storage never
    stores the empty override. *)
Theorem X20_storage_round_trip (path : string)
    (file_format : option FileFormat.t) (s3_endpoint_override : option string) :
  SavedDatasetFileStorage.from_proto
    (SavedDatasetFileStorage.to_proto
       (SavedDatasetFileStorage.__init__ path file_format
          s3_endpoint_override))
  = SavedDatasetFileStorage.__init__ path file_format
      (if bool_decide (s3_endpoint_override = Some "")
       then None else s3_endpoint_override).
Proof.
  rewrite SavedDatasetFileStorage_from_proto_eq.
  unfold SavedDatasetFileStorage.to_proto, SavedDatasetStorageProto.new,
    FileOptions.to_proto. simpl. f_equal.
  - by destruct file_format as [[]|].
  - unfold FileOptions.s3_endpoint_override. simpl.
    destruct s3_endpoint_override as [e|]; simpl; [|reflexivity].
    destruct (decide (e = "")) as [->|Hne]; [reflexivity|].
    rewrite (bool_decide_eq_false_2 (Some e = Some "")) by congruence.
    simpl. by rewrite bool_decide_eq_false_2.
Qed.

(** X21: the storage decoded from any envelope can be turned into a
    source: [to_data_source] does not raise on it, and the source points
    at the url of the envelope. *)
Theorem X21_decoded_storage_has_source (m : SavedDatasetStorageProto.t) :
  ∃ d, SavedDatasetFileStorage.to_data_source
         (SavedDatasetFileStorage.from_proto m) = Ok d
       ∧ FileSource.path d
         = Some (DataSourceProto.fo_file_url
                   (SavedDatasetStorageProto.file_storage m))
       ∧ FileOptions.file_format (FileSource.file_options d)
         = FileFormat.from_proto
             (DataSourceProto.fo_file_format
                (SavedDatasetStorageProto.file_storage m)).
Proof.
  rewrite SavedDatasetFileStorage_from_proto_eq.
  eexists. split; [apply init_Some|]. by split.
Qed.

(** ** The name of the local copy *)

Lemma split_on_no_sep (s : string) :
  has_char "/" s = false → split_on "/" s = [s].
Proof.
  induction s as [|c rest IH]; [reflexivity|].
  simpl. intros [Hc Hrest]%orb_false_iff. rewrite Hc, (IH Hrest). reflexivity.
Qed.

Lemma split_on_sep (s : string) :
  has_char "/" s = true → ∃ h x t, split_on "/" s = h :: x :: t.
Proof.
  induction s as [|c rest IH]; [discriminate|].
  simpl. destruct (Ascii.eqb c "/") eqn:Hc; simpl.
  - intros _. destruct (has_char "/" rest) eqn:Hrest.
    + destruct (IH eq_refl) as (h & x & t & ->). by eexists _, _, _.
    + rewrite (split_on_no_sep _ Hrest). by eexists _, _, _.
  - intros Hrest. destruct (IH Hrest) as (h & x & t & ->). by eexists _, _, _.
Qed.

Lemma last_segment_no_sep (s : string) :
  has_char "/" s = false → last_segment s = s.
Proof. intros H. unfold last_segment. by rewrite (split_on_no_sep _ H). Qed.

Lemma last_segment_String (c : ascii) (rest : string) :
  has_char "/" (String c rest) = true →
  last_segment (String c rest) = last_segment rest.
Proof.
  unfold last_segment. simpl.
  destruct (Ascii.eqb c "/") eqn:Hc; simpl.
  - intros _. destruct (has_char "/" rest) eqn:Hrest.
    + by destruct (split_on_sep _ Hrest) as (h & x & t & ->).
    + by rewrite (split_on_no_sep _ Hrest).
  - intros Hrest. by destruct (split_on_sep _ Hrest) as (h & x & t & ->).
Qed.

Lemma has_char_app (c : ascii) (s1 s2 : string) :
  has_char c (s1 ++ s2) = has_char c s1 || has_char c s2.
Proof.
  induction s1 as [|a s1 IH]; [reflexivity|].
  change (has_char c (String a (s1 ++ s2))
          = has_char c (String a s1) || has_char c s2).
  simpl. by rewrite IH, orb_assoc.
Qed.

Lemma last_segment_app (dir name : string) :
  last_segment (dir ++ String "/" name) = last_segment name.
Proof.
  induction dir as [|c dir IH].
  - by apply last_segment_String.
  - change (last_segment (String c (dir ++ String "/" name))
            = last_segment name).
    rewrite last_segment_String; [exact IH|].
    simpl. rewrite has_char_app. simpl. by rewrite !orb_true_r.
Qed.

Lemma last_segment_has_no_sep (s : string) :
  has_char "/" (last_segment s) = false.
Proof.
  induction s as [|c rest IH]; [reflexivity|].
  destruct (has_char "/" (String c rest)) eqn:H.
  - by rewrite last_segment_String.
  - by rewrite last_segment_no_sep.
Qed.

(** X22: the name [path.split('/')[-1]] under which the copy of a remote
    file is written holds no slash, so the copy lies in [/tmp] itself; it
    is what follows the last slash of the path, the directories before it
    play no part, and a path that ends in a slash gives the empty name. *)
Theorem X22_name_of_local_copy (dir name : string) :
  has_char "/" name = false →
  last_segment (dir ++ "/" ++ name) = name
  ∧ last_segment name = name
  ∧ last_segment (dir ++ "/") = ""
  ∧ ∀ path, has_char "/" (last_segment path) = false.
Proof.
  intros H. split; [|split; [|split]].
  - change (dir ++ "/" ++ name) with (dir ++ String "/" name).
    by rewrite last_segment_app, last_segment_no_sep.
  - by apply last_segment_no_sep.
  - apply (last_segment_app dir "").
  - apply last_segment_has_no_sep.
Qed.

Lemma X22_name_of_local_copy_witness :
  last_segment ("bucket/a" ++ "/" ++ "drivers.parquet") = "drivers.parquet"
  ∧ last_segment "drivers.parquet" = "drivers.parquet"
  ∧ last_segment ("bucket/a" ++ "/") = ""
  ∧ ∀ path, has_char "/" (last_segment path) = false.
Proof.
  apply (X22_name_of_local_copy "bucket/a" "drivers.parquet"). reflexivity.
Defined.

(** ** Reading the schema *)

Lemma prefix_app (p s : string) : String.prefix p (p ++ s) = true.
Proof.
  induction p as [|a p IH]; [by destruct s|].
  change (String.prefix (String a p) (String a (p ++ s)) = true).
  simpl. by destruct (Ascii.ascii_dec a a).
Qed.

Section IntrospectionProperties.
Context {Table : Type}.
Variable schema_arrow : Table → list (string * string).
Variable via_pandas : Table → Table.

(** The handle of a source is configured from what the override reads as,
    which is never the empty string. *)
Lemma tmp_last_segment (path : string) :
  last_segment ("/tmp/" ++ last_segment path) = last_segment path.
Proof.
  change ("/tmp/" ++ last_segment path)
    with ("/tmp" ++ String "/" (last_segment path)).
  rewrite last_segment_app. apply last_segment_no_sep.
  apply last_segment_has_no_sep.
Qed.

Lemma source_handle (d : FileSource.t) (p : string) :
  startswith p "s3://" = true →
  FileSource.create_filesystem_and_path p
    (FileOptions.s3_endpoint_override (FileSource.file_options d))
  = (Some {| client_kwargs :=
               (λ e, {[ "endpoint_url" := e ]})
                 <$> FileOptions.s3_endpoint_override
                       (FileSource.file_options d) |},
     replace p "s3://" "").
Proof.
  intros H. rewrite create_filesystem_and_path_s3 by exact H.
  pose proof (s3_endpoint_override_not_empty (FileSource.file_options d)) as Hne.
  destruct (FileOptions.s3_endpoint_override (FileSource.file_options d))
    as [e|]; [|reflexivity].
  rewrite bool_decide_eq_false_2; [reflexivity|congruence].
Qed.

Lemma get_schema_local (d : FileSource.t) (w : World Table) (p : string) :
  FileSource.path d = Some p →
  startswith p "s3://" = false →
  get_table_column_names_and_types schema_arrow via_pandas d w = (ParquetFile_schema schema_arrow w p, w).
Proof.
  intros Hp Hs. unfold get_table_column_names_and_types.
  by rewrite Hp, create_filesystem_and_path_local.
Qed.

Lemma get_schema_s3 (d : FileSource.t) (w : World Table) (p : string) :
  FileSource.path d = Some p →
  startswith p "s3://" = true →
  get_table_column_names_and_types schema_arrow via_pandas d w
  = match s3_objects w
            ((λ e, {[ "endpoint_url" := e ]})
               <$> FileOptions.s3_endpoint_override
                     (FileSource.file_options d))
          !! replace p "s3://" "" with
    | Some table =>
        if bool_decide (last_segment (replace p "s3://" "") = "")
        then (inl IsADirectoryError, w)
        else
          (inr (schema_arrow (via_pandas table)),
           {| local_files :=
                <["/tmp/" ++ last_segment (replace p "s3://" "")
                  := via_pandas table]> (local_files w);
              s3_objects := s3_objects w |})
    | None => (inl FileNotFoundError, w)
    end.
Proof.
  intros Hp Hs. unfold get_table_column_names_and_types.
  rewrite Hp, source_handle by exact Hs. simpl.
  destruct (s3_objects w _ !! _) as [table|]; [|reflexivity].
  unfold to_parquet. rewrite tmp_last_segment.
  case_bool_decide; [reflexivity|].
  unfold ParquetFile_schema. simpl. by rewrite lookup_insert_eq.
Qed.

(** X23: for a source whose path does not start with the scheme, the
    schema is read from the local file at that path, the files are left
    as they were and nothing goes through pandas; without a file at the
    path the call raises. *)
Theorem X23_local_schema_read_in_place (d : FileSource.t) (w : World Table)
    (p : string) :
  FileSource.path d = Some p →
  startswith p "s3://" = false →
  get_table_column_names_and_types schema_arrow via_pandas d w
  = (match local_files w !! p with
     | Some table => inr (schema_arrow table)
     | None => inl FileNotFoundError
     end, w).
Proof. intros Hp Hs. by rewrite (get_schema_local d w p Hp Hs). Qed.


(** X25: nothing is written before an object has been read.  Whenever a
    call leaves the files other than it found them, the path of the
    source starts with the scheme and the object at the path without the
    scheme was there to read: a source without a path, a local source
    and a source whose object is missing leave every file as it was. *)
Theorem X25_write_only_after_remote_read (d : FileSource.t) (w : World Table) :
  (get_table_column_names_and_types schema_arrow via_pandas d w).2 ≠ w →
  ∃ (p : string) (table : Table),
    FileSource.path d = Some p
    ∧ startswith p "s3://" = true
    ∧ s3_objects w
        ((λ e, {[ "endpoint_url" := e ]})
           <$> FileOptions.s3_endpoint_override (FileSource.file_options d))
        !! replace p "s3://" "" = Some table.
Proof.
  intros Hw.
  destruct (FileSource.path d) as [p|] eqn:Hp.
  - destruct (startswith p "s3://") eqn:Hs.
    + rewrite (get_schema_s3 d w p Hp Hs) in Hw.
      destruct (s3_objects w _ !! _) as [table|] eqn:Ht; [|done].
      by exists p, table.
    + by rewrite (get_schema_local d w p Hp Hs) in Hw.
  - unfold get_table_column_names_and_types in Hw. by rewrite Hp in Hw.
Qed.

(** X26: whatever the source, the call changes no object of the store
    and no local file outside [/tmp/]. *)
Theorem X26_writes_only_under_tmp (d : FileSource.t) (w : World Table)
    (q : string) :
  startswith q "/tmp/" = false →
  local_files (get_table_column_names_and_types schema_arrow via_pandas d w).2 !! q = local_files w !! q
  ∧ s3_objects (get_table_column_names_and_types schema_arrow via_pandas d w).2 = s3_objects w.
Proof.
  intros Hq.
  destruct (FileSource.path d) as [p|] eqn:Hp.
  - destruct (startswith p "s3://") eqn:Hs.
    + rewrite (get_schema_s3 d w p Hp Hs).
      destruct (s3_objects w _ !! _); [|done].
      case_bool_decide; [done|].
      simpl. split; [|reflexivity].
      apply lookup_insert_ne. intros <-.
      unfold startswith in Hq. by rewrite prefix_app in Hq.
    + by rewrite (get_schema_local d w p Hp Hs).
  - unfold get_table_column_names_and_types. by rewrite Hp.
Qed.

End IntrospectionProperties.

Lemma X23_local_schema_read_in_place_witness :
  get_table_column_names_and_types id id example_source example_world
  = (match local_files example_world !! "my_features.parquet" with
     | Some table => inr (id table)
     | None => inl FileNotFoundError
     end, example_world).
Proof.
  apply (X23_local_schema_read_in_place id id example_source example_world
           "my_features.parquet");
    reflexivity.
Defined.


Lemma X25_write_only_after_remote_read_witness :
  ∃ (p : string) (table : list (string * string)),
    FileSource.path example_s3_source = Some p
    ∧ startswith p "s3://" = true
    ∧ s3_objects example_world
        ((λ e, {[ "endpoint_url" := e ]})
           <$> FileOptions.s3_endpoint_override
                 (FileSource.file_options example_s3_source))
        !! replace p "s3://" "" = Some table.
Proof.
  apply (X25_write_only_after_remote_read id id example_s3_source
           example_world).
  intros H.
  apply (f_equal (λ w, local_files w !! "/tmp/drivers.parquet")) in H.
  vm_compute in H. discriminate H.
Defined.

Lemma X26_writes_only_under_tmp_witness :
  local_files
    (get_table_column_names_and_types id id example_s3_source
       example_world).2 !! "my_features.parquet"
  = local_files example_world !! "my_features.parquet"
  ∧ s3_objects
      (get_table_column_names_and_types id id example_s3_source
         example_world).2
    = s3_objects example_world.
Proof.
  apply (X26_writes_only_under_tmp id id example_s3_source example_world
           "my_features.parquet").
  reflexivity.
Defined.

